(** * Lingo Mini: the session controller of [src/App.jsx]

    A shallow embedding of the [App] component: its eleven state hooks, the
    asynchronous handlers ([seedDemo], [loadCourses], [loadLessons],
    [startLesson], [submitCurrent]), the synchronous ones ([next],
    [resetToHome]) and the buttons through which the rendered screens call
    them.

    Modelling choices.
    - A handler is a _process_: a finite sequence of state-hook setter calls
      separated by [await] points.  A setter acts on the live state at the
      moment it is called; what a handler reads from its closure ([idx],
      [exercises], [answer]) is read from the state it was rendered with.
    - [await fetch(..)] followed by [await res.json()] is one request whose
      reply is [Some data] (the decoded body, of the type the backend
      declares for that route) or [None] (the promise rejected: transport or
      decoding failed, and control goes to the [catch] block).
    - JavaScript numbers that only ever hold small integers are integers
      here: [idx] is a [nat] (an array index), [score] and [order] are [Z]. *)

From Stdlib Require Import List String ZArith Lia Bool Arith.
From Stdlib Require Import Permutation Sorted.
Import ListNotations.
Open Scope string_scope.

(** ** Payloads of the backend *)

Record course := {
  course_id : string;
  course_name : string;
  course_code : string
}.

(** [order] may be absent from the JSON object. *)
Record lesson := {
  lesson_id : string;
  lesson_order : option Z;
  lesson_title : string
}.

(** [options] is read as [current.options || []]. *)
Record exercise := {
  exercise_id : string;
  exercise_type : string;
  exercise_prompt : string;
  exercise_options : option (list string)
}.

(** Body of the reply of [POST /api/answer]. *)
Record verdict := {
  correct : bool;
  expected : string
}.

(** ** The state hooks of [App] (lines 43-53) *)

Record state := {
  loading : bool;
  courses : list course;
  selectedCourse : option course;
  lessons : list lesson;
  selectedLesson : option lesson;
  exercises : list exercise;
  step : string;
  idx : nat;
  answer : string;
  result : option verdict;
  score : Z
}.

(** The values passed to [useState]. *)
Definition initial : state := {|
  loading := false;
  courses := [];
  selectedCourse := None;
  lessons := [];
  selectedLesson := None;
  exercises := [];
  step := "home";
  idx := 0;
  answer := "";
  result := None;
  score := 0
|}.

Definition setLoading (v : bool) (s : state) : state :=
  {| loading := v; courses := courses s; selectedCourse := selectedCourse s;
     lessons := lessons s; selectedLesson := selectedLesson s;
     exercises := exercises s; step := step s; idx := idx s;
     answer := answer s; result := result s; score := score s |}.

Definition setCourses (v : list course) (s : state) : state :=
  {| loading := loading s; courses := v; selectedCourse := selectedCourse s;
     lessons := lessons s; selectedLesson := selectedLesson s;
     exercises := exercises s; step := step s; idx := idx s;
     answer := answer s; result := result s; score := score s |}.

Definition setSelectedCourse (v : option course) (s : state) : state :=
  {| loading := loading s; courses := courses s; selectedCourse := v;
     lessons := lessons s; selectedLesson := selectedLesson s;
     exercises := exercises s; step := step s; idx := idx s;
     answer := answer s; result := result s; score := score s |}.

Definition setLessons (v : list lesson) (s : state) : state :=
  {| loading := loading s; courses := courses s; selectedCourse := selectedCourse s;
     lessons := v; selectedLesson := selectedLesson s;
     exercises := exercises s; step := step s; idx := idx s;
     answer := answer s; result := result s; score := score s |}.

Definition setSelectedLesson (v : option lesson) (s : state) : state :=
  {| loading := loading s; courses := courses s; selectedCourse := selectedCourse s;
     lessons := lessons s; selectedLesson := v;
     exercises := exercises s; step := step s; idx := idx s;
     answer := answer s; result := result s; score := score s |}.

Definition setExercises (v : list exercise) (s : state) : state :=
  {| loading := loading s; courses := courses s; selectedCourse := selectedCourse s;
     lessons := lessons s; selectedLesson := selectedLesson s;
     exercises := v; step := step s; idx := idx s;
     answer := answer s; result := result s; score := score s |}.

Definition setStep (v : string) (s : state) : state :=
  {| loading := loading s; courses := courses s; selectedCourse := selectedCourse s;
     lessons := lessons s; selectedLesson := selectedLesson s;
     exercises := exercises s; step := v; idx := idx s;
     answer := answer s; result := result s; score := score s |}.

Definition setIdx (v : nat) (s : state) : state :=
  {| loading := loading s; courses := courses s; selectedCourse := selectedCourse s;
     lessons := lessons s; selectedLesson := selectedLesson s;
     exercises := exercises s; step := step s; idx := v;
     answer := answer s; result := result s; score := score s |}.

Definition setAnswer (v : string) (s : state) : state :=
  {| loading := loading s; courses := courses s; selectedCourse := selectedCourse s;
     lessons := lessons s; selectedLesson := selectedLesson s;
     exercises := exercises s; step := step s; idx := idx s;
     answer := v; result := result s; score := score s |}.

Definition setResult (v : option verdict) (s : state) : state :=
  {| loading := loading s; courses := courses s; selectedCourse := selectedCourse s;
     lessons := lessons s; selectedLesson := selectedLesson s;
     exercises := exercises s; step := step s; idx := idx s;
     answer := answer s; result := v; score := score s |}.

(** [setScore] is called both with a value, [setScore(0)], and with an
    updater, [setScore(s => s + 10)]; the first is the constant updater. *)
Definition setScore (f : Z -> Z) (s : state) : state :=
  {| loading := loading s; courses := courses s; selectedCourse := selectedCourse s;
     lessons := lessons s; selectedLesson := selectedLesson s;
     exercises := exercises s; step := step s; idx := idx s;
     answer := answer s; result := result s; score := f (score s) |}.

(** ** Requests and processes *)

Inductive request :=
| PostSeed                                              (* POST /api/seed *)
| GetCourses                                            (* GET /api/courses *)
| GetLessons (course : string)                          (* GET /api/courses/:id/lessons *)
| GetExercises (lesson : string)                        (* GET /api/lessons/:id/exercises *)
| PostAnswer (exercise : string) (given : string).      (* POST /api/answer *)

(** What a settled request hands to the code after it: the decoded body.
    The HTTP status is no part of it, since [res.ok] and [res.status] are
    read nowhere: a response with an error status whose body decodes is
    handled like any other.  Bodies are taken at the type the route
    declares; a body that is JSON of some other shape is not represented.
    [seedDemo] awaits the [fetch] only and never decodes the body. *)
Definition payload (q : request) : Type :=
  match q with
  | PostSeed => unit
  | GetCourses => list course
  | GetLessons _ => list lesson
  | GetExercises _ => list exercise
  | PostAnswer _ _ => verdict
  end.

Inductive proc : Type :=
| Done : proc
| Update : (state -> state) -> proc -> proc
| Await : forall q : request, (option (payload q) -> proc) -> proc.

Notation "f ;; k" := (Update f k) (at level 61, right associativity).
Notation "'await' q 'as' r 'in' k" := (Await q (fun r => k))
  (at level 61, q at level 9, r name, right associativity).

(** [p] to completion, then [k]: the rest of a caller after [await p()], or
    a [finally] block after a [try] whose [catch] swallows every error. *)
Fixpoint andThen (p k : proc) : proc :=
  match p with
  | Done => k
  | Update f p' => Update f (andThen p' k)
  | Await q c => Await q (fun r => andThen (c r) k)
  end.

(** ** [Array.prototype.sort] with a comparator

    The sort is stable (ECMAScript 2019); with a consistent comparator its
    result is the one stable ordering of the input, which this insertion
    sort computes: [y] moves in front of an earlier [x] only when
    [cmp x y > 0]. *)

Section ArraySort.
Context {A : Type} (cmp : A -> A -> Z).

Fixpoint insert (x : A) (l : list A) : list A :=
  match l with
  | [] => [x]
  | y :: l' => if (0 <? cmp x y)%Z then y :: insert x l' else x :: y :: l'
  end.

Fixpoint Array_sort (l : list A) : list A :=
  match l with
  | [] => []
  | x :: l' => insert x (Array_sort l')
  end.

End ArraySort.

(** [a.order || 0] *)
Definition order_or_0 (a : lesson) : Z :=
  match lesson_order a with
  | Some n => n
  | None => 0%Z
  end.

(** [(a, b) => (a.order||0) - (b.order||0)] *)
Definition by_order (a b : lesson) : Z := (order_or_0 a - order_or_0 b)%Z.

(** ** The handlers *)

(** Lines 83-94. *)
Definition loadLessons (c : course) : proc :=
  setLessons [] ;;
  setSelectedLesson None ;;
  setExercises [] ;;
  await (GetLessons (course_id c)) as r in
  match r with
  | Some data => setLessons (Array_sort by_order data) ;; Done
  | None => Done
  end.

(** Lines 69-81.  [loadLessons] catches its own errors, so the [await] on it
    never throws. *)
Definition loadCourses : proc :=
  await GetCourses as r in
  match r with
  | Some data =>
      setCourses data ;;
      match data with
      | c :: _ => setSelectedCourse (Some c) ;; loadLessons c
      | [] => Done
      end
  | None => Done
  end.

(** Lines 57-67. *)
Definition seedDemo : proc :=
  setLoading true ;;
  andThen
    (await PostSeed as r in
     match r with
     | Some _ => loadCourses
     | None => Done
     end)
    (setLoading false ;; Done).

(** Lines 96-113.  The Retry button passes [selectedLesson], which may be
    [null]; reading [lesson.id] then throws inside the [try]. *)
Definition startLesson (l : option lesson) : proc :=
  setSelectedLesson l ;;
  setLoading true ;;
  andThen
    match l with
    | Some ls =>
        await (GetExercises (lesson_id ls)) as r in
        match r with
        | Some data =>
            setExercises data ;;
            setIdx 0 ;;
            setScore (fun _ => 0%Z) ;;
            setAnswer "" ;;
            setResult None ;;
            setStep "play" ;;
            Done
        | None => Done
        end
    | None => Done
    end
    (setLoading false ;; Done).

(** [exercises[idx]], also the [current] of line 201. *)
Definition current (s : state) : option exercise :=
  nth_error (exercises s) (idx s).

(** Lines 115-133.  [s] is the state the handler closed over. *)
Definition submitCurrent (s : state) : proc :=
  match current s with
  | None => Done
  | Some ex =>
      setLoading true ;;
      andThen
        (await (PostAnswer (exercise_id ex) (answer s)) as r in
         match r with
         | Some data =>
             setResult (Some data) ;;
             if correct data then setScore (fun n => n + 10)%Z ;; Done else Done
         | None => Done
         end)
        (setLoading false ;; Done)
  end.

(** Lines 135-144. *)
Definition next (s : state) : proc :=
  let nextIdx := idx s + 1 in
  if (List.length (exercises s) <=? nextIdx)%nat then
    setStep "result" ;; Done
  else
    setIdx nextIdx ;; setAnswer "" ;; setResult None ;; Done.

(** Lines 146-153. *)
Definition resetToHome : proc :=
  setStep "home" ;;
  setSelectedLesson None ;;
  setExercises [] ;;
  setIdx 0 ;;
  setAnswer "" ;;
  setResult None ;;
  Done.

(** ** The rendered screens: which handler a user action reaches

    A button that is not rendered, or is rendered [disabled], calls
    nothing.  The "Loading..." overlay of lines 265-269 is styling: it sets
    no [disabled] attribute and detaches no handler. *)

Inductive event :=
| ClickSeedDemo
| ClickCourse (i : nat)          (* the i-th course card *)
| ClickStart (i : nat)           (* Start on the i-th lesson row *)
| ClickOption (j : nat)          (* the j-th option of an mcq exercise *)
| TypeAnswer (v : string)        (* onChange of the text input *)
| ClickCheck
| ClickNext
| ClickExit
| ClickRetry
| ClickBack.

(** [Home], lines 156-199. *)
Definition onHome (s : state) (e : event) : proc :=
  match e with
  | ClickSeedDemo => seedDemo
  | ClickCourse i =>
      match nth_error (courses s) i with
      | Some c => setSelectedCourse (Some c) ;; loadLessons c
      | None => Done
      end
  | ClickStart i =>
      match selectedCourse s, nth_error (lessons s) i with
      | Some _, Some ls => if loading s then Done else startLesson (Some ls)
      | _, _ => Done
      end
  | _ => Done
  end.

(** [Play], lines 201-246: nothing is rendered without a current exercise. *)
Definition onPlay (s : state) (e : event) : proc :=
  match current s with
  | None => Done
  | Some cur =>
      match e with
      | ClickOption j =>
          if exercise_type cur =? "mcq" then
            match exercise_options cur with
            | Some opts =>
                match nth_error opts j with
                | Some opt => setAnswer opt ;; Done
                | None => Done
                end
            | None => Done
            end
          else Done
      | TypeAnswer v =>
          if exercise_type cur =? "mcq" then Done else setAnswer v ;; Done
      | ClickCheck =>
          match result s with
          | None =>
              if loading s || (answer s =? "") then Done else submitCurrent s
          | Some _ => Done
          end
      | ClickNext =>
          match result s with
          | Some _ => next s
          | None => Done
          end
      | ClickExit => resetToHome
      | _ => Done
      end
  end.

(** [Result], lines 248-258. *)
Definition onResult (s : state) (e : event) : proc :=
  match e with
  | ClickRetry => startLesson (selectedLesson s)
  | ClickBack => resetToHome
  | _ => Done
  end.

(** Lines 262-264. *)
Definition handle (s : state) (e : event) : proc :=
  if step s =? "home" then onHome s e
  else if step s =? "play" then onPlay s e
  else if step s =? "result" then onResult s e
  else Done.

(** The two buttons that call [startLesson]. *)
Definition starts_lesson (e : event) : bool :=
  match e with
  | ClickStart _ | ClickRetry => true
  | _ => false
  end.

(** ** Running processes *)

(** A request in flight together with what resumes when it settles. *)
Definition pending : Type := { q : request & option (payload q) -> proc }.

(** Run the synchronous prefix of [p]: up to its first [await], or to its
    end. *)
Fixpoint advance (p : proc) (s : state) : state * option pending :=
  match p with
  | Done => (s, None)
  | Update f k => advance k (f s)
  | Await q k => (s, Some (existT _ q k))
  end.

(** The backend as seen by one handler call: a reply, or a failure, for
    every request. *)
Definition backend : Type := forall q : request, option (payload q).

(** Run [p] to completion with nothing else interleaved.  Every request
    issued is logged, in order, with the value [loading] had when it was
    sent. *)
Fixpoint run (b : backend) (p : proc) (s : state)
  : state * list (request * bool) :=
  match p with
  | Done => (s, [])
  | Update f k => run b k (f s)
  | Await q k => let (s', t) := run b (k (b q)) s in (s', (q, loading s) :: t)
  end.

Definition final (b : backend) (p : proc) (s : state) : state :=
  fst (run b p s).

Definition calls (b : backend) (p : proc) (s : state) : list request :=
  map fst (snd (run b p s)).

(** The busy flag was up at every request [p] sent. *)
Definition busy_at_calls (b : backend) (p : proc) (s : state) : Prop :=
  Forall (fun c => snd c = true) (snd (run b p s)).

(** A synchronous handler, or the synchronous prefix of any handler. *)
Definition apply (p : proc) (s : state) : state := fst (advance p s).

(** [Next] pressed on whatever is current. *)
Definition press_next (s : state) : state := apply (next s) s.

(** No setter call anywhere in [p] changes the part [part] of the state. *)
Fixpoint preserves {A : Type} (part : state -> A) (p : proc) : Prop :=
  match p with
  | Done => True
  | Update f k => (forall s, part (f s) = part s) /\ preserves part k
  | Await q k => forall r, preserves part (k r)
  end.

(** A backend on which every request fails. *)
Definition unreachable : backend := fun _ => None.

(** [order === k], after the [|| 0]. *)
Definition has_order (k : Z) (a : lesson) : bool := (order_or_0 a =? k)%Z.

Definition ascending (l : list lesson) : Prop :=
  StronglySorted (fun a b => (order_or_0 a <= order_or_0 b)%Z) l.

(** [l'] holds the lessons of [l], and those of equal order in the order
    they have in [l]. *)
Definition stable_for (l l' : list lesson) : Prop :=
  forall k, filter (has_order k) l' = filter (has_order k) l.

(** ** Sample data *)

Module Sample.

Definition spanish : course :=
  {| course_id := "c1"; course_name := "Spanish"; course_code := "es" |}.

Definition mk_lesson (i : string) (o : option Z) : lesson :=
  {| lesson_id := i; lesson_order := o; lesson_title := i |}.

(** Orders 2, 1, 1, 3 as the service might return them. *)
Definition fetched : list lesson :=
  [mk_lesson "w" (Some 2%Z); mk_lesson "x" (Some 1%Z);
   mk_lesson "y" (Some 1%Z); mk_lesson "z" (Some 3%Z)].

Definition greetings : lesson := mk_lesson "l1" (Some 1%Z).

Definition hola : exercise :=
  {| exercise_id := "e1"; exercise_type := "text";
     exercise_prompt := "hello"; exercise_options := None |}.

Definition right : verdict := {| correct := true; expected := "hola" |}.
Definition wrong : verdict := {| correct := false; expected := "hola" |}.

(** A backend with one course, the four lessons above, and an exercise list
    and a verdict chosen by the caller. *)
Definition serving (exs : list exercise) (v : verdict) : backend :=
  fun q =>
    match q as q' return option (payload q') with
    | PostSeed => Some tt
    | GetCourses => Some [spanish]
    | GetLessons _ => Some fetched
    | GetExercises _ => Some exs
    | PostAnswer _ _ => Some v
    end.

(** On the single exercise [hola], answered and checked, draft [a]. *)
Definition reviewing (a : string) (r : option verdict) : state :=
  {| loading := false; courses := [spanish]; selectedCourse := Some spanish;
     lessons := [greetings]; selectedLesson := Some greetings;
     exercises := [hola]; step := "play"; idx := 0;
     answer := a; result := r; score := 10 |}.

Definition adios : exercise :=
  {| exercise_id := "e2"; exercise_type := "mcq";
     exercise_prompt := "goodbye";
     exercise_options := Some ["hola"; "adios"] |}.

(** On the first of two exercises, its answer checked. *)
Definition first_of_two : state :=
  {| loading := false; courses := [spanish]; selectedCourse := Some spanish;
     lessons := [greetings]; selectedLesson := Some greetings;
     exercises := [hola; adios]; step := "play"; idx := 0;
     answer := "hola"; result := Some right; score := 10 |}.

(** On the catalog with the course and a lesson listed. *)
Definition browsing (busy : bool) : state :=
  {| loading := busy; courses := [spanish]; selectedCourse := Some spanish;
     lessons := [greetings]; selectedLesson := None;
     exercises := []; step := "home"; idx := 0;
     answer := ""; result := None; score := 0 |}.

(** A backend that answers every request and has no course. *)
Definition empty_catalog : backend :=
  fun q =>
    match q as q' return option (payload q') with
    | PostSeed => Some tt
    | GetCourses => Some []
    | GetLessons _ => Some []
    | GetExercises _ => Some []
    | PostAnswer _ _ => Some wrong
    end.

(** Judges "hola" right and anything else wrong. *)
Definition strict : backend :=
  fun q =>
    match q as q' return option (payload q') with
    | PostSeed => Some tt
    | GetCourses => Some [spanish]
    | GetLessons _ => Some fetched
    | GetExercises _ => Some [hola; adios]
    | PostAnswer _ a => Some (if a =? "hola" then right else wrong)
    end.

(** Just started on the two exercises. *)
Definition fresh_two : state :=
  {| loading := false; courses := [spanish]; selectedCourse := Some spanish;
     lessons := [greetings]; selectedLesson := Some greetings;
     exercises := [hola; adios]; step := "play"; idx := 0;
     answer := ""; result := None; score := 0 |}.

(** On the result screen after a run that earned 20. *)
Definition finished : state :=
  {| loading := false; courses := [spanish]; selectedCourse := Some spanish;
     lessons := [greetings]; selectedLesson := Some greetings;
     exercises := [hola; adios]; step := "result"; idx := 1;
     answer := "adios"; result := Some right; score := 20 |}.

End Sample.

(** ** Several requests in flight

    Nothing stops the user from acting while a request is pending, and
    replies may come back in any order.  A configuration is the live state
    together with the continuations still waiting for a reply. *)

Record config := {
  st : state;
  inflight : list pending
}.

(** Start (or resume) [p] on [s]: its synchronous prefix runs at once, and
    if it stops at an [await] the continuation joins those in flight. *)
Definition spawn (p : proc) (s : state) (ws : list pending) : config :=
  match advance p s with
  | (s', Some w) => {| st := s'; inflight := (ws ++ [w])%list |}
  | (s', None) => {| st := s'; inflight := ws |}
  end.

Definition without (i : nat) (ws : list pending) : list pending :=
  (firstn i ws ++ skipn (S i) ws)%list.

(** The user does something on the screen as rendered from the live state,
    or the [i]-th request in flight settles with the reply [b] has for
    it. *)
Inductive action :=
| Fire (e : event)
| Settle (i : nat) (b : backend).

Definition perform (c : config) (a : action) : config :=
  match a with
  | Fire e => spawn (handle (st c) e) (st c) (inflight c)
  | Settle i b =>
      match nth_error (inflight c) i with
      | Some w =>
          spawn (projT2 w (b (projT1 w))) (st c) (without i (inflight c))
      | None => c
      end
  end.



(** The states met when every request settles before the user acts
    again. *)
Inductive played : state -> Prop :=
| played_mount (b : backend) : played (final b loadCourses initial)
| played_event (s : state) (b : backend) (e : event) :
    played s -> played (final b (handle s e) s).

(** ** Invariants *)

(** If there are exercises, [idx] points at one of them. *)
Definition in_bounds (s : state) : Prop :=
  exercises s = [] \/ idx s < List.length (exercises s).



(** At most 10 points per exercise answered. *)
Definition fair_score (s : state) : Prop :=
  (step s = "play" ->
   (score s <= 10 * Z.of_nat (idx s)
               + match result s with Some _ => 10 | None => 0 end)%Z) /\
  (step s = "result" ->
   (score s <= 10 * Z.of_nat (List.length (exercises s)))%Z).

(** [P] holds again at every point where [p] can be observed (each
    [await] and the end), provided it held when the segment leading there
    began; [pre] is what the current segment has done so far. *)
Fixpoint upholds (P : state -> Prop) (pre : state -> state) (p : proc) : Prop :=
  match p with
  | Done => forall s, P s -> P (pre s)
  | Update f k => upholds P (fun s => f (pre s)) k
  | Await q k =>
      (forall s, P s -> P (pre s)) /\ forall r, upholds P (fun s => s) (k r)
  end.



(** Every request [p] can send satisfies [ok]. *)
Fixpoint asks (ok : request -> Prop) (p : proc) : Prop :=
  match p with
  | Done => True
  | Update _ k => asks ok k
  | Await q k => ok q /\ forall r, asks ok (k r)
  end.

Definition is_answer (q : request) : Prop :=
  match q with
  | PostAnswer _ _ => True
  | _ => False
  end.

(** [current.options || []] *)
Definition declared (cur : exercise) : list string :=
  match exercise_options cur with
  | Some opts => opts
  | None => []
  end.

(** On a multiple-choice exercise the draft is empty or a declared
    option. *)
Definition draft_fits (s : state) : Prop :=
  step s = "play" ->
  forall cur, current s = Some cur -> exercise_type cur = "mcq" ->
              answer s = "" \/ In (answer s) (declared cur).

(** ** Playing a lesson through *)

(** What the backend makes of draft [a] for exercise [ex]. *)
Definition judged (b : backend) (ex : exercise) (a : string) : option verdict :=
  b (PostAnswer (exercise_id ex) a).

Definition judged_correct (b : backend) (p : exercise * string) : bool :=
  match judged b (fst p) (snd p) with
  | Some v => correct v
  | None => false
  end.

(** One exercise: the draft is entered (both the option buttons and the
    text input call [setAnswer]), then Check, then Next. *)
Definition round (b : backend) (s : state) (a : string) : state :=
  let s1 := setAnswer a s in
  let s2 := final b (handle s1 ClickCheck) s1 in
  final b (handle s2 ClickNext) s2.

Definition play_through (b : backend) (drafts : list string) (s : state) : state :=
  fold_left (round b) drafts s.

(** ** The HTTP exchange behind a request

    [fetch] resolves with a response whatever the HTTP status and rejects
    only when no response arrives; [res.json()] rejects when the body is
    not JSON.  Either rejection throws at the [await] and lands in the
    handler's [catch]. *)

Inductive exchange (q : request) : Type :=
| NoResponse                                        (* fetch() rejects *)
| Responded (ok : bool) (body : option (payload q)).
    (* res.ok, and what res.json() gives: None when it rejects *)

Arguments NoResponse {q}.
Arguments Responded {q} ok body.

Definition server : Type := forall q : request, exchange q.

(** What the handlers make of an exchange: [const res = await fetch(..)]
    then [const data = await res.json()], with [res.ok] never looked at.
    For the seed request the body is not decoded at all. *)
Definition heard (sv : server) : backend :=
  fun q =>
    match sv q with
    | NoResponse => None
    | Responded _ body =>
        match q as q' return option (payload q') -> option (payload q') with
        | PostSeed => fun _ => Some tt
        | _ => fun decoded => decoded
        end body
    end.

(** The request was rejected: no response, or a body that is not JSON. *)
Definition rejected (sv : server) (q : request) : Prop :=
  sv q = NoResponse \/ exists ok, sv q = Responded ok None.

Module Outage.

(** Every request is answered with an error status; the exercise route
    still sends a body that decodes, here to [exs]. *)
Definition erring (exs : list exercise) : server :=
  fun q =>
    match q as q' return exchange q' with
    | GetExercises l => @Responded (GetExercises l) false (Some exs)
    | PostSeed => @Responded PostSeed false None
    | GetCourses => @Responded GetCourses false None
    | GetLessons c => @Responded (GetLessons c) false None
    | PostAnswer x a => @Responded (PostAnswer x a) false None
    end.

(** The same, with the course route sending a body that decodes to [cs]. *)
Definition erring_catalog (cs : list course) : server :=
  fun q =>
    match q as q' return exchange q' with
    | GetCourses => @Responded GetCourses false (Some cs)
    | PostSeed => @Responded PostSeed false None
    | GetLessons c => @Responded (GetLessons c) false None
    | GetExercises l => @Responded (GetExercises l) false None
    | PostAnswer x a => @Responded (PostAnswer x a) false None
    end.

(** The same, with the answer route sending a body that decodes to [v]. *)
Definition erring_verdict (v : verdict) : server :=
  fun q =>
    match q as q' return exchange q' with
    | PostAnswer x a => @Responded (PostAnswer x a) false (Some v)
    | PostSeed => @Responded PostSeed false None
    | GetCourses => @Responded GetCourses false None
    | GetLessons c => @Responded (GetLessons c) false None
    | GetExercises l => @Responded (GetExercises l) false None
    end.

(** The network is down. *)
Definition offline : server := fun _ => NoResponse.

End Outage.

(** * Properties *)

(** ** What the handlers hear of an exchange *)

Lemma heard_rejected (sv : server) (q : request) :
  rejected sv q -> q <> PostSeed -> heard sv q = None.
Proof.
  unfold heard. intros [H|[ok H]] Hq; rewrite H; [reflexivity|].
  destruct q; try reflexivity. now elim Hq.
Qed.

Lemma heard_decoded (sv : server) (q : request) (ok : bool)
  (body : option (payload q)) :
  sv q = Responded ok body -> q <> PostSeed -> heard sv q = body.
Proof.
  unfold heard. intros H Hq. rewrite H.
  destruct q; try reflexivity. now elim Hq.
Qed.

(** ** Sorting by a key *)

Section SortFacts.
Variable cmp : lesson -> lesson -> Z.
Hypothesis cmp_is_difference :
  forall a b, cmp a b = (order_or_0 a - order_or_0 b)%Z.

Lemma insert_perm (x : lesson) (l : list lesson) :
  Permutation (x :: l) (insert cmp x l).
Proof.
  induction l as [|y l IH]; simpl; [reflexivity|].
  destruct (0 <? cmp x y)%Z; [|reflexivity].
  rewrite perm_swap. now apply perm_skip.
Qed.

Lemma sort_perm (l : list lesson) : Permutation l (Array_sort cmp l).
Proof.
  induction l as [|x l IH]; simpl; [reflexivity|].
  rewrite <- insert_perm. now apply perm_skip.
Qed.

Lemma insert_ascending (x : lesson) (l : list lesson) :
  ascending l -> ascending (insert cmp x l).
Proof.
  unfold ascending. induction 1 as [|y l Hl IH Hy]; simpl.
  - repeat constructor.
  - rewrite cmp_is_difference.
    destruct (Z.ltb_spec 0 (order_or_0 x - order_or_0 y)) as [Hlt|Hge].
    + constructor; [exact IH|].
      rewrite <- insert_perm. constructor; [lia|exact Hy].
    + constructor; [now constructor|].
      constructor; [lia|].
      eapply Forall_impl; [|exact Hy]. simpl. intros; lia.
Qed.

Lemma sort_ascending (l : list lesson) : ascending (Array_sort cmp l).
Proof.
  induction l as [|x l IH]; simpl.
  - constructor.
  - now apply insert_ascending.
Qed.

Lemma insert_filter (k : Z) (x : lesson) (l : list lesson) :
  filter (has_order k) (insert cmp x l) = filter (has_order k) (x :: l).
Proof.
  induction l as [|y l IH]; [reflexivity|].
  simpl insert. rewrite cmp_is_difference.
  destruct (Z.ltb_spec 0 (order_or_0 x - order_or_0 y)) as [Hlt|Hge];
    [|reflexivity].
  simpl. rewrite IH. simpl. unfold has_order.
  destruct (Z.eqb_spec (order_or_0 y) k), (Z.eqb_spec (order_or_0 x) k);
    try reflexivity; lia.
Qed.

Lemma sort_stable (l : list lesson) : stable_for l (Array_sort cmp l).
Proof.
  intro k. induction l as [|x l IH]; [reflexivity|].
  simpl Array_sort. rewrite insert_filter. simpl. now rewrite IH.
Qed.

End SortFacts.

Lemma filter_own_order (y : lesson) (l : list lesson) :
  filter (has_order (order_or_0 y)) (y :: l)
  = y :: filter (has_order (order_or_0 y)) l.
Proof.
  simpl. unfold has_order at 1. now rewrite Z.eqb_refl.
Qed.

(** An ascending list is fixed by which lessons it holds at each order and
    in what sequence: there is one stable ordering of a fetched list. *)
Lemma stable_ordering_unique (l1 l2 : list lesson) :
  ascending l1 -> ascending l2 ->
  (forall k, filter (has_order k) l1 = filter (has_order k) l2) ->
  l1 = l2.
Proof.
  unfold ascending. intros H1. revert l2.
  induction H1 as [|x l1 Hs1 IH Hx]; intros l2 H2 Heq.
  - destruct l2 as [|y l2]; [reflexivity|].
    specialize (Heq (order_or_0 y)). rewrite filter_own_order in Heq.
    discriminate.
  - destruct H2 as [|y l2 Hs2 Hy].
    + specialize (Heq (order_or_0 x)). rewrite filter_own_order in Heq.
      discriminate.
    + assert (Hxy : (order_or_0 x <= order_or_0 y)%Z).
      { pose proof (Heq (order_or_0 y)) as E.
        rewrite (filter_own_order y) in E.
        assert (Hin : In y (filter (has_order (order_or_0 y)) (x :: l1)))
          by (rewrite E; now left).
        apply filter_In in Hin. destruct Hin as [[->|Hin] _]; [lia|].
        rewrite Forall_forall in Hx. now apply Hx. }
      assert (Hyx : (order_or_0 y <= order_or_0 x)%Z).
      { pose proof (Heq (order_or_0 x)) as E.
        rewrite (filter_own_order x) in E.
        assert (Hin : In x (filter (has_order (order_or_0 x)) (y :: l2)))
          by (rewrite <- E; now left).
        apply filter_In in Hin. destruct Hin as [[->|Hin] _]; [lia|].
        rewrite Forall_forall in Hy. now apply Hy. }
      assert (Exy : x = y).
      { pose proof (Heq (order_or_0 x)) as E.
        rewrite (filter_own_order x) in E.
        replace (order_or_0 x) with (order_or_0 y) in E by lia.
        rewrite (filter_own_order y) in E. now injection E. }
      subst y. f_equal. apply IH; [exact Hs2|].
      intro k. specialize (Heq k). simpl in Heq.
      destruct (has_order k x); [now injection Heq|exact Heq].
Qed.

(** ** Loading the lessons of a course *)

Lemma loadLessons_run (b : backend) (c : course) (s : state) :
  run b (loadLessons c) s =
  (match b (GetLessons (course_id c)) with
   | Some data =>
       setLessons (Array_sort by_order data)
         (setExercises [] (setSelectedLesson None (setLessons [] s)))
   | None => setExercises [] (setSelectedLesson None (setLessons [] s))
   end,
   [(GetLessons (course_id c), loading s)]).
Proof.
  unfold loadLessons. simpl.
  destruct (b (GetLessons (course_id c))); reflexivity.
Qed.

(** C8: when the lesson fetch succeeds, the lesson list [loadLessons]
    installs is the fetched list sorted ascending by [order], a missing
    [order] counting as 0, and the sort is stable: the lessons of any one
    order appear in the sequence the service returned them in.  No other
    ascending, stable arrangement of the fetched list exists. *)
Theorem loadLessons_sorts_stably
  (b : backend) (c : course) (s : state) (data : list lesson) :
  b (GetLessons (course_id c)) = Some data ->
  let shown := lessons (final b (loadLessons c) s) in
  ascending shown /\
  Permutation data shown /\
  stable_for data shown /\
  (forall l', ascending l' -> stable_for data l' -> l' = shown).
Proof.
  intros Hb shown.
  assert (E : shown = Array_sort by_order data).
  { unfold shown, final. rewrite loadLessons_run, Hb. reflexivity. }
  rewrite E.
  assert (D : forall x y, by_order x y = (order_or_0 x - order_or_0 y)%Z)
    by reflexivity.
  repeat split.
  - now apply sort_ascending.
  - now apply sort_perm.
  - now apply sort_stable.
  - intros l' Hasc Hst. apply stable_ordering_unique.
    + exact Hasc.
    + now apply sort_ascending.
    + intro k. rewrite Hst. symmetry. now apply sort_stable.
Qed.

Lemma loadLessons_sorts_stably_witness :
  Sample.serving [] Sample.right (GetLessons (course_id Sample.spanish))
  = Some Sample.fetched /\
  let shown :=
    lessons (final (Sample.serving [] Sample.right)
                   (loadLessons Sample.spanish) initial) in
  ascending shown /\
  Permutation Sample.fetched shown /\
  stable_for Sample.fetched shown /\
  (forall l', ascending l' -> stable_for Sample.fetched l' -> l' = shown).
Proof.
  split; [reflexivity|].
  apply (loadLessons_sorts_stably
           (Sample.serving [] Sample.right) Sample.spanish initial
           Sample.fetched).
  reflexivity.
Defined.

(** Orders 2, 1, 1, 3: the two lessons of order 1 stay in fetched order; a
    lesson without [order] sorts as 0. *)
Example sort_2113 :
  map lesson_id (Array_sort by_order Sample.fetched) = ["x"; "y"; "w"; "z"] /\
  map lesson_id
    (Array_sort by_order (Sample.fetched ++ [Sample.mk_lesson "n" None]))
  = ["n"; "x"; "y"; "w"; "z"].
Proof. split; reflexivity. Qed.

(** ** What each handler does when run on its own *)

Lemma startLesson_run (b : backend) (ls : lesson) (s : state) :
  run b (startLesson (Some ls)) s =
  (match b (GetExercises (lesson_id ls)) with
   | Some data =>
       setLoading false
         (setStep "play" (setResult None (setAnswer "" (setScore (fun _ => 0%Z)
           (setIdx 0 (setExercises data (setSelectedLesson (Some ls) s)))))))
   | None => setLoading false (setSelectedLesson (Some ls) s)
   end,
   [(GetExercises (lesson_id ls), true)]).
Proof.
  unfold startLesson. simpl.
  destruct (b (GetExercises (lesson_id ls))); reflexivity.
Qed.

Lemma startLesson_null_run (b : backend) (s : state) :
  run b (startLesson None) s = (setLoading false (setSelectedLesson None s), []).
Proof. reflexivity. Qed.

Lemma submitCurrent_run (b : backend) (s : state) (ex : exercise) :
  current s = Some ex ->
  run b (submitCurrent s) s =
  (match b (PostAnswer (exercise_id ex) (answer s)) with
   | Some data =>
       setLoading false
         (setScore (fun n => if correct data then n + 10 else n)%Z
            (setResult (Some data) s))
   | None => setLoading false s
   end,
   [(PostAnswer (exercise_id ex) (answer s), true)]).
Proof.
  intro Hc. unfold submitCurrent. rewrite Hc. simpl.
  destruct (b (PostAnswer (exercise_id ex) (answer s))) as [data|];
    [destruct (correct data)|]; reflexivity.
Qed.

Lemma submitCurrent_idle (b : backend) (s s' : state) :
  current s = None -> run b (submitCurrent s) s' = (s', []).
Proof. intro Hc. unfold submitCurrent. now rewrite Hc. Qed.

Lemma next_apply (s : state) :
  press_next s =
  if (List.length (exercises s) <=? idx s + 1)%nat
  then setStep "result" s
  else setResult None (setAnswer "" (setIdx (idx s + 1) s)).
Proof.
  unfold press_next, apply, next.
  destruct (List.length (exercises s) <=? idx s + 1)%nat; reflexivity.
Qed.

Lemma next_run (b : backend) (s : state) :
  run b (next s) s = (press_next s, []).
Proof.
  unfold press_next, apply, next.
  destruct (List.length (exercises s) <=? idx s + 1)%nat; reflexivity.
Qed.

Lemma resetToHome_run (b : backend) (s : state) :
  run b resetToHome s =
  (setResult None (setAnswer "" (setIdx 0 (setExercises []
     (setSelectedLesson None (setStep "home" s))))), []).
Proof. reflexivity. Qed.

Lemma loadCourses_run (b : backend) (s : state) :
  run b loadCourses s =
  match b GetCourses with
  | Some (c :: rest) =>
      (final b (loadLessons c)
         (setSelectedCourse (Some c) (setCourses (c :: rest) s)),
       [(GetCourses, loading s); (GetLessons (course_id c), loading s)])
  | Some [] => (setCourses [] s, [(GetCourses, loading s)])
  | None => (s, [(GetCourses, loading s)])
  end.
Proof.
  unfold loadCourses, final. cbn [run].
  destruct (b GetCourses) as [[|c rest]|]; try reflexivity.
  cbn [run]. rewrite loadLessons_run. reflexivity.
Qed.

(** ** A failed fetch *)

(** C1 (as the code has it): when the lesson request is rejected (no
    response, or a body that is not JSON), [loadLessons] leaves behind
    exactly the three clears it makes before it fetches (lesson list,
    selected lesson, exercise list) and nothing else is changed.  When the
    exercise request is rejected, [startLesson] leaves behind the lesson
    it recorded as selected, with the busy flag down, and nothing else is
    changed.  An error status is no failure to either handler: whatever
    the status, a body that decodes is installed, sorted lessons by
    [loadLessons], and exercises with index 0, score 0, empty draft, no
    last result and the play step by [startLesson]. *)
Theorem failed_fetch_keeps_what_it_did_before
  (sv : server) (s : state) (c : course) (ls : lesson) :
  (rejected sv (GetLessons (course_id c)) ->
   final (heard sv) (loadLessons c) s
   = setExercises [] (setSelectedLesson None (setLessons [] s))) /\
  (rejected sv (GetExercises (lesson_id ls)) ->
   final (heard sv) (startLesson (Some ls)) s
   = setLoading false (setSelectedLesson (Some ls) s)) /\
  (forall ok data,
      sv (GetLessons (course_id c)) = Responded ok (Some data) ->
      final (heard sv) (loadLessons c) s
      = setLessons (Array_sort by_order data)
          (setExercises [] (setSelectedLesson None (setLessons [] s)))) /\
  (forall ok data,
      sv (GetExercises (lesson_id ls)) = Responded ok (Some data) ->
      final (heard sv) (startLesson (Some ls)) s
      = setLoading false
          (setStep "play" (setResult None (setAnswer "" (setScore (fun _ => 0%Z)
             (setIdx 0 (setExercises data (setSelectedLesson (Some ls) s)))))))).
Proof.
  unfold final. rewrite loadLessons_run, startLesson_run.
  split; [|split; [|split]].
  - intro H. now rewrite (heard_rejected sv _ H).
  - intro H. now rewrite (heard_rejected sv _ H).
  - intros ok data H. now rewrite (heard_decoded sv _ ok _ H).
  - intros ok data H. now rewrite (heard_decoded sv _ ok _ H).
Qed.

Lemma failed_fetch_keeps_what_it_did_before_witness :
  let s := Sample.reviewing "hola" None in
  (rejected Outage.offline (GetLessons (course_id Sample.spanish)) /\
   rejected (Outage.erring []) (GetLessons (course_id Sample.spanish)) /\
   rejected Outage.offline (GetExercises (lesson_id Sample.greetings)) /\
   Outage.erring [Sample.hola; Sample.adios]
     (GetExercises (lesson_id Sample.greetings))
   = @Responded (GetExercises "l1") false
       (Some [Sample.hola; Sample.adios])) /\
  final (heard Outage.offline) (loadLessons Sample.spanish) s
  = setExercises [] (setSelectedLesson None (setLessons [] s)) /\
  final (heard (Outage.erring [])) (loadLessons Sample.spanish) s
  = setExercises [] (setSelectedLesson None (setLessons [] s)) /\
  final (heard Outage.offline) (startLesson (Some Sample.greetings)) s
  = setLoading false (setSelectedLesson (Some Sample.greetings) s) /\
  step (final (heard (Outage.erring [Sample.hola; Sample.adios]))
          (startLesson (Some Sample.greetings)) s) = "play".
Proof.
  intro s.
  assert (H1 : rejected Outage.offline (GetLessons (course_id Sample.spanish)))
    by (left; reflexivity).
  assert (H2 : rejected (Outage.erring [])
                 (GetLessons (course_id Sample.spanish)))
    by (right; exists false; reflexivity).
  assert (H3 : rejected Outage.offline
                 (GetExercises (lesson_id Sample.greetings)))
    by (left; reflexivity).
  split; [repeat split; assumption|].
  split; [|split; [|split]].
  - exact (proj1 (failed_fetch_keeps_what_it_did_before
                    Outage.offline s Sample.spanish Sample.greetings) H1).
  - exact (proj1 (failed_fetch_keeps_what_it_did_before
                    (Outage.erring []) s Sample.spanish Sample.greetings) H2).
  - exact (proj1 (proj2 (failed_fetch_keeps_what_it_did_before
                    Outage.offline s Sample.spanish Sample.greetings)) H3).
  - rewrite (proj2 (proj2 (proj2 (failed_fetch_keeps_what_it_did_before
               (Outage.erring [Sample.hola; Sample.adios]) s
               Sample.spanish Sample.greetings)))
               false [Sample.hola; Sample.adios] eq_refl).
    reflexivity.
Defined.

(** C1 as stated fails: with every request failing, [loadLessons] empties a
    non-empty lesson list and exercise list and drops the selected lesson,
    and [startLesson] changes the selected lesson.  And when the failure is
    an error status with a body that decodes, [startLesson] goes all the
    way: exercise list, index, score and screen are replaced. *)
Lemma failed_fetch_mutates_session :
  let s := Sample.reviewing "hola" None in
  lessons (final unreachable (loadLessons Sample.spanish) s) <> lessons s /\
  exercises (final unreachable (loadLessons Sample.spanish) s) <> exercises s /\
  selectedLesson (final unreachable (loadLessons Sample.spanish) s)
  <> selectedLesson s /\
  selectedLesson (final unreachable (startLesson (Some Sample.greetings)) initial)
  <> selectedLesson initial /\
  (let t := final (heard (Outage.erring [Sample.hola; Sample.adios]))
              (startLesson (Some Sample.greetings)) Sample.finished in
   exercises t = [Sample.hola; Sample.adios] /\
   idx t <> idx Sample.finished /\ score t <> score Sample.finished /\
   step t <> step Sample.finished).
Proof. repeat split; discriminate. Qed.

(** ** The busy flag *)

Lemma andThen_run (b : backend) (p k : proc) (s : state) :
  run b (andThen p k) s =
  (fst (run b k (fst (run b p s))),
   (snd (run b p s) ++ snd (run b k (fst (run b p s))))%list).
Proof.
  revert s. induction p as [|f p IH|q c IH]; intro s; simpl.
  - now destruct (run b k s).
  - apply IH.
  - rewrite IH. destruct (run b (c (b q)) s) as [s1 t1]. reflexivity.
Qed.

Lemma loadCourses_flags (b : backend) (s : state) :
  Forall (fun c => snd c = loading s) (snd (run b loadCourses s)) /\
  loading (final b loadCourses s) = loading s.
Proof.
  unfold final. rewrite loadCourses_run.
  destruct (b GetCourses) as [[|c rest]|]; simpl.
  - repeat constructor.
  - split; [repeat constructor|].
    unfold final. rewrite loadLessons_run.
    destruct (b (GetLessons (course_id c))); reflexivity.
  - repeat constructor.
Qed.

Lemma seedDemo_flags (b : backend) (s : state) :
  busy_at_calls b seedDemo s /\ loading (final b seedDemo s) = false.
Proof.
  unfold busy_at_calls, final, seedDemo. cbn [run].
  rewrite andThen_run. split; [|reflexivity].
  cbn [snd fst run]. rewrite app_nil_r.
  destruct (b PostSeed) as [u|].
  - destruct (loadCourses_flags b (setLoading true s)) as [H _].
    destruct (run b loadCourses (setLoading true s)) as [s1 t1].
    constructor; [reflexivity|exact H].
  - repeat constructor.
Qed.

(** While the exercise fetch is in flight the flag is up, and whatever the
    reply and whatever the state has become by then, settling lowers it and
    leaves nothing pending. *)
Lemma startLesson_in_flight (ls : lesson) (s : state) :
  exists k,
    advance (startLesson (Some ls)) s
    = (setLoading true (setSelectedLesson (Some ls) s),
       Some (existT _ (GetExercises (lesson_id ls)) k)) /\
    forall r s', snd (advance (k r) s') = None /\
                 loading (fst (advance (k r) s')) = false.
Proof.
  eexists. split; [reflexivity|].
  intros [data|] s'; split; reflexivity.
Qed.

Lemma submitCurrent_in_flight (s : state) (ex : exercise) :
  current s = Some ex ->
  exists k,
    advance (submitCurrent s) s
    = (setLoading true s,
       Some (existT _ (PostAnswer (exercise_id ex) (answer s)) k)) /\
    forall r s', snd (advance (k r) s') = None /\
                 loading (fst (advance (k r) s')) = false.
Proof.
  intro Hc. unfold submitCurrent. rewrite Hc.
  eexists. split; [reflexivity|].
  intros [data|] s'; [destruct (correct data) eqn:E|];
    cbn; rewrite ?E; split; reflexivity.
Qed.

(** The lesson fetch is in flight with the flag wherever it was. *)
Lemma loadLessons_in_flight (c : course) (s : state) :
  exists k,
    advance (loadLessons c) s
    = (setExercises [] (setSelectedLesson None (setLessons [] s)),
       Some (existT _ (GetLessons (course_id c)) k)) /\
    forall r s', snd (advance (k r) s') = None /\
                 loading (fst (advance (k r) s')) = loading s'.
Proof.
  eexists. split; [reflexivity|].
  intros [data|] s'; split; reflexivity.
Qed.

Lemma buttons_disabled_while_loading (s : state) (i : nat) :
  loading s = true ->
  handle s (ClickStart i) = Done /\ handle s ClickCheck = Done.
Proof.
  intro Hb. unfold handle, onHome, onPlay, onResult. rewrite Hb.
  destruct (step s =? "home"), (step s =? "play"), (step s =? "result"),
    (selectedCourse s), (nth_error (lessons s) i), (current s), (result s);
    split; reflexivity.
Qed.

(** C2 (as the code has it): [startLesson], [submitCurrent] (when there is
    a current exercise) and [seedDemo] raise the busy flag before their
    requests and lower it when they finish, whatever the backend replied;
    [loadLessons] and [loadCourses] send their requests with the flag as
    they found it and leave it so; while the flag is up the Start and
    Check buttons are disabled, so pressing them calls nothing. *)
Theorem busy_flag_discipline (b : backend) (s : state) :
  (forall ls,
      busy_at_calls b (startLesson (Some ls)) s /\
      calls b (startLesson (Some ls)) s = [GetExercises (lesson_id ls)] /\
      loading (final b (startLesson (Some ls)) s) = false) /\
  (forall ex,
      current s = Some ex ->
      busy_at_calls b (submitCurrent s) s /\
      calls b (submitCurrent s) s = [PostAnswer (exercise_id ex) (answer s)] /\
      loading (final b (submitCurrent s) s) = false) /\
  (busy_at_calls b seedDemo s /\ loading (final b seedDemo s) = false) /\
  (forall c,
      snd (run b (loadLessons c) s) = [(GetLessons (course_id c), loading s)] /\
      loading (final b (loadLessons c) s) = loading s) /\
  (Forall (fun c => snd c = loading s) (snd (run b loadCourses s)) /\
   loading (final b loadCourses s) = loading s) /\
  (loading s = true ->
   forall i, handle s (ClickStart i) = Done /\ handle s ClickCheck = Done).
Proof.
  repeat apply conj.
  - intro ls. unfold busy_at_calls, calls, final. rewrite startLesson_run.
    repeat split; [repeat constructor|].
    destruct (b (GetExercises (lesson_id ls))); reflexivity.
  - intros ex Hc. unfold busy_at_calls, calls, final.
    rewrite (submitCurrent_run b s ex Hc).
    repeat split; [repeat constructor|].
    destruct (b (PostAnswer (exercise_id ex) (answer s))); reflexivity.
  - apply seedDemo_flags.
  - apply seedDemo_flags.
  - intro c. unfold final. rewrite loadLessons_run. split; [reflexivity|].
    destruct (b (GetLessons (course_id c))); reflexivity.
  - apply loadCourses_flags.
  - apply loadCourses_flags.
  - intros Hb i. now apply buttons_disabled_while_loading.
Qed.

Lemma busy_flag_discipline_witness :
  let b := Sample.serving [Sample.hola] Sample.right in
  let s := setLoading true (Sample.reviewing "hola" None) in
  (current s = Some Sample.hola /\ loading s = true) /\
  (busy_at_calls b (submitCurrent s) s /\
   calls b (submitCurrent s) s = [PostAnswer "e1" "hola"] /\
   loading (final b (submitCurrent s) s) = false) /\
  (handle s (ClickStart 0) = Done /\ handle s ClickCheck = Done).
Proof.
  intros b s.
  destruct (busy_flag_discipline b s) as (_ & Hsubmit & _ & _ & _ & Hgate).
  split; [split; reflexivity|].
  split; [exact (Hsubmit Sample.hola eq_refl) | exact (Hgate eq_refl 0)].
Defined.

(** C2 as stated fails twice over.  [loadLessons] and [loadCourses] send
    their requests with the flag down.  And nothing but the Start and Check
    buttons looks at the flag: with it up, a course card or Seed demo still
    sends a request, and so does [startLesson] itself. *)
Lemma busy_flag_neither_raised_nor_tested :
  ~ busy_at_calls unreachable (loadLessons Sample.spanish) initial /\
  ~ busy_at_calls unreachable loadCourses initial /\
  (let s := Sample.browsing true in
   loading s = true /\
   calls unreachable (handle s (ClickCourse 0)) s = [GetLessons "c1"] /\
   lessons (final unreachable (handle s (ClickCourse 0)) s) <> lessons s /\
   calls unreachable (handle s ClickSeedDemo) s = [PostSeed] /\
   calls unreachable (startLesson (Some Sample.greetings)) s
   = [GetExercises "l1"]).
Proof.
  split; [|split].
  - intro H. inversion H as [|c t Hc Ht]. discriminate.
  - intro H. inversion H as [|c t Hc Ht]. discriminate.
  - cbv zeta. repeat split; try reflexivity. discriminate.
Qed.

(** ** Frames: what a process cannot touch *)

Section Frames.
Context {A : Type} (part : state -> A).

Lemma preserves_run (b : backend) (p : proc) (s : state) :
  preserves part p -> part (final b p s) = part s.
Proof.
  unfold final. revert s.
  induction p as [|f p IH|q c IH]; intros s Hp; simpl in *.
  - reflexivity.
  - destruct Hp as [Hf Hp]. now rewrite IH, Hf.
  - specialize (IH (b q) s (Hp (b q))).
    now destruct (run b (c (b q)) s).
Qed.

Lemma preserves_andThen (p k : proc) :
  preserves part p -> preserves part k -> preserves part (andThen p k).
Proof.
  induction p as [|f p IH|q c IH]; simpl; intros Hp Hk.
  - exact Hk.
  - destruct Hp. split; auto.
  - intro r. apply IH; auto.
Qed.

End Frames.

Ltac frame :=
  repeat match goal with
    | |- preserves _ (andThen _ _) => apply preserves_andThen
    | |- preserves _ (match ?r with _ => _ end) => destruct r
    | |- preserves _ (if ?c then _ else _) => destruct c
    | |- forall _, _ => intro
    | |- _ /\ _ => split
    | |- True => exact I
    | |- _ = _ => reflexivity
    | |- preserves _ _ => progress cbn [preserves]
    end.

Lemma loadLessons_keeps_score (c : course) : preserves score (loadLessons c).
Proof. unfold loadLessons. frame. Qed.

Lemma loadCourses_keeps_score : preserves score loadCourses.
Proof. unfold loadCourses. frame. apply loadLessons_keeps_score. Qed.

Lemma seedDemo_keeps_score : preserves score seedDemo.
Proof. unfold seedDemo. frame. apply loadCourses_keeps_score. Qed.

Lemma next_keeps_score (s : state) : preserves score (next s).
Proof. unfold next. frame. Qed.

Lemma resetToHome_keeps_score : preserves score resetToHome.
Proof. unfold resetToHome. frame. Qed.

(** ** Submitting *)

(** The handler by itself does not look at the draft: called on an empty
    one it would post it.  Only the Check button stands in between. *)
Remark submitCurrent_posts_any_draft :
  calls unreachable (submitCurrent (Sample.reviewing "" None))
    (Sample.reviewing "" None) = [PostAnswer "e1" ""].
Proof. reflexivity. Qed.

(** C3: in every state whose draft answer is empty, submitting (pressing
    Check, the one caller of [submitCurrent]) leaves the whole state as it
    is and sends no request. *)
Theorem submit_with_empty_draft_is_noop (b : backend) (s : state) :
  answer s = "" -> run b (handle s ClickCheck) s = (s, []).
Proof.
  intro Ha.
  assert (E : handle s ClickCheck = Done).
  { unfold handle, onHome, onPlay, onResult. rewrite Ha, orb_true_r.
    destruct (step s =? "home"), (step s =? "play"), (step s =? "result"),
      (current s), (result s); reflexivity. }
  now rewrite E.
Qed.

Lemma submit_with_empty_draft_is_noop_witness :
  answer (Sample.reviewing "" None) = "" /\
  run (Sample.serving [Sample.hola] Sample.right)
      (handle (Sample.reviewing "" None) ClickCheck)
      (Sample.reviewing "" None)
  = (Sample.reviewing "" None, []).
Proof.
  split; [reflexivity|].
  apply (submit_with_empty_draft_is_noop
           (Sample.serving [Sample.hola] Sample.right)
           (Sample.reviewing "" None)).
  reflexivity.
Defined.

(** C10: when [idx] is outside the exercise list there is no current
    exercise, and [submitCurrent] returns at once: the state is untouched
    and no request is sent.  The same holds for the Check button. *)
Theorem submit_without_current_is_noop (b : backend) (s : state) :
  (List.length (exercises s) <= idx s)%nat ->
  run b (submitCurrent s) s = (s, []) /\
  run b (handle s ClickCheck) s = (s, []).
Proof.
  intro Hout.
  assert (Hc : current s = None) by now apply nth_error_None.
  split.
  - now apply submitCurrent_idle.
  - unfold handle, onHome, onPlay, onResult. rewrite Hc.
    destruct (step s =? "home"), (step s =? "play"), (step s =? "result");
      reflexivity.
Qed.

Lemma submit_without_current_is_noop_witness :
  (List.length (exercises initial) <= idx initial)%nat /\
  run (Sample.serving [] Sample.right) (submitCurrent initial) initial
  = (initial, []) /\
  run (Sample.serving [] Sample.right) (handle initial ClickCheck) initial
  = (initial, []).
Proof.
  split; [simpl; lia|].
  apply (submit_without_current_is_noop (Sample.serving [] Sample.right) initial).
  simpl; lia.
Defined.

(** ** Starting a lesson *)

(** C4 (what the code does instead): a lesson whose exercise list comes
    back empty is put on the "play" step, not the "result" step, with
    score 0 and index 0.  There is no current exercise, so the play screen
    renders nothing and no button is left to press: every user action is
    void. *)
Theorem empty_lesson_stays_on_play (b : backend) (ls : lesson) (s : state) :
  b (GetExercises (lesson_id ls)) = Some [] ->
  let s' := final b (startLesson (Some ls)) s in
  step s' = "play" /\ step s' <> "result" /\
  score s' = 0%Z /\ idx s' = 0 /\ current s' = None /\
  forall e, handle s' e = Done.
Proof.
  intros Hb s'. unfold s', final. rewrite startLesson_run, Hb. cbn.
  repeat split; try reflexivity. discriminate.
Qed.

Lemma empty_lesson_stays_on_play_witness :
  Sample.serving [] Sample.right (GetExercises (lesson_id Sample.greetings))
  = Some [] /\
  let s' := final (Sample.serving [] Sample.right)
              (startLesson (Some Sample.greetings)) (Sample.browsing false) in
  step s' = "play" /\ step s' <> "result" /\
  score s' = 0%Z /\ idx s' = 0 /\ current s' = None /\
  forall e, handle s' e = Done.
Proof.
  split; [reflexivity|].
  apply (empty_lesson_stays_on_play
           (Sample.serving [] Sample.right) Sample.greetings
           (Sample.browsing false)).
  reflexivity.
Defined.

(** With at least one exercise the play screen has its first exercise. *)
Lemma started_lesson_shows_first (b : backend) (ls : lesson) (s : state)
  (ex : exercise) (rest : list exercise) :
  b (GetExercises (lesson_id ls)) = Some (ex :: rest) ->
  let s' := final b (startLesson (Some ls)) s in
  step s' = "play" /\ current s' = Some ex /\ score s' = 0%Z /\
  answer s' = "" /\ result s' = None /\ loading s' = false.
Proof.
  intros Hb s'. unfold s', final. rewrite startLesson_run, Hb.
  repeat split.
Qed.

(** ** Advancing *)

Lemma press_next_keeps (s : state) :
  exercises (press_next s) = exercises s /\ score (press_next s) = score s.
Proof.
  rewrite next_apply.
  destruct (List.length (exercises s) <=? idx s + 1)%nat; split; reflexivity.
Qed.

Lemma press_next_iter (n : nat) (s : state) :
  let s' := Nat.iter n press_next s in
  exercises s' = exercises s /\
  score s' = score s /\
  (idx s + n < List.length (exercises s) ->
   idx s' = idx s + n /\ step s' = step s)%nat /\
  (List.length (exercises s) <= idx s + n ->
   List.length (exercises s) <= idx s' + 1 /\
   (0 < n -> step s' = "result"))%nat.
Proof.
  induction n as [|n IH]; cbn zeta.
  - simpl. repeat split; lia.
  - cbn zeta in IH. destruct IH as (He & Hs & Hin & Hout).
    rewrite !Nat.iter_succ. set (t := Nat.iter n press_next s) in *.
    destruct (press_next_keeps t) as [He' Hs'].
    rewrite next_apply, He.
    split; [|split; [|split]].
    + rewrite <- He at 2. rewrite <- He'. now rewrite next_apply, He.
    + rewrite <- Hs, <- Hs'. now rewrite next_apply, He.
    + intro Hlt. destruct Hin as [Hi Hst]; [lia|].
      destruct (Nat.leb_spec (List.length (exercises s)) (idx t + 1));
        [lia|]. simpl. split; [lia|exact Hst].
    + intro Hge.
      destruct (Nat.leb_spec (List.length (exercises s)) (idx t + 1)) as [Hle|Hgt].
      * simpl. split; [exact Hle|reflexivity].
      * assert (idx s + n < List.length (exercises s))%nat.
        { destruct (Nat.lt_ge_cases (idx s + n) (List.length (exercises s)))
            as [Hl|Hg]; [exact Hl|]. destruct (Hout Hg). lia. }
        destruct Hin as [Hi Hst]; lia.
Qed.

(** C5: [next] moves to [idx + 1] when that index is inside the exercise
    list, clearing the draft and the last result and nothing else;
    otherwise it only switches to the result screen.  Hence after [n]
    presses the index is [idx + n] and the screen is unchanged as long as
    [idx + n] is inside the list, the result screen is reached as soon as
    it is not, and the score is the same throughout. *)
Theorem next_steps_by_one_until_result (s : state) :
  ((idx s + 1 < List.length (exercises s))%nat ->
   press_next s = setResult None (setAnswer "" (setIdx (idx s + 1) s))) /\
  ((List.length (exercises s) <= idx s + 1)%nat ->
   press_next s = setStep "result" s) /\
  forall n,
    score (Nat.iter n press_next s) = score s /\
    ((idx s + n < List.length (exercises s))%nat ->
     idx (Nat.iter n press_next s) = idx s + n /\
     step (Nat.iter n press_next s) = step s) /\
    ((List.length (exercises s) <= idx s + n)%nat -> (0 < n)%nat ->
     step (Nat.iter n press_next s) = "result").
Proof.
  split; [|split].
  - intro H. rewrite next_apply.
    destruct (Nat.leb_spec (List.length (exercises s)) (idx s + 1));
      [lia|reflexivity].
  - intro H. rewrite next_apply.
    destruct (Nat.leb_spec (List.length (exercises s)) (idx s + 1));
      [reflexivity|lia].
  - intro n. destruct (press_next_iter n s) as (_ & Hs & Hin & Hout).
    split; [exact Hs|]. split; [exact Hin|].
    intros Hge Hn. now apply Hout.
Qed.

Lemma next_steps_by_one_until_result_witness :
  let s := Sample.first_of_two in
  ((idx s + 1 < List.length (exercises s))%nat /\
   (List.length (exercises s) <= idx (press_next s) + 1)%nat /\
   (List.length (exercises s) <= idx s + 2)%nat /\ (0 < 2)%nat) /\
  press_next s = setResult None (setAnswer "" (setIdx 1 s)) /\
  press_next (press_next s) = setStep "result" (press_next s) /\
  (idx (Nat.iter 1 press_next s) = idx s + 1 /\
   step (Nat.iter 1 press_next s) = step s) /\
  step (Nat.iter 2 press_next s) = "result".
Proof.
  intro s.
  destruct (next_steps_by_one_until_result s) as (Hin & _ & Hn).
  destruct (next_steps_by_one_until_result (press_next s)) as (_ & Hout & _).
  split; [vm_compute; lia|].
  split; [apply Hin; vm_compute; lia|].
  split; [apply Hout; vm_compute; lia|].
  split; [apply (Hn 1); vm_compute; lia | apply (Hn 2); vm_compute; lia].
Defined.

(** ** The score *)

Lemma handle_keeps_score_or_submits (s : state) (e : event) :
  starts_lesson e = false ->
  preserves score (handle s e) \/
  (handle s e = submitCurrent s /\ exists ex, current s = Some ex).
Proof.
  unfold handle, onHome, onPlay, onResult.
  destruct e; try discriminate; intros _;
    repeat match goal with
      | |- context [if ?c then _ else _] => destruct c eqn:?
      | |- context [match ?x with _ => _ end] => destruct x eqn:?
      end;
    first
      [ left; exact I
      | left; apply seedDemo_keeps_score
      | left; apply next_keeps_score
      | left; apply resetToHome_keeps_score
      | left; split; [reflexivity | apply loadLessons_keeps_score]
      | left; split; [reflexivity | exact I]
      | right; split; [reflexivity | eexists; reflexivity] ].
Qed.

Lemma submitCurrent_score (b : backend) (s : state) (ex : exercise) :
  current s = Some ex ->
  score (final b (submitCurrent s) s) =
  match b (PostAnswer (exercise_id ex) (answer s)) with
  | Some v => if correct v then (score s + 10)%Z else score s
  | None => score s
  end.
Proof.
  intro Hc. unfold final. rewrite (submitCurrent_run b s ex Hc).
  destruct (b (PostAnswer (exercise_id ex) (answer s))); reflexivity.
Qed.

(** C6: no operation lowers the score: every user action other than
    starting a lesson, and every handler other than [startLesson], leaves
    it where it was or above.  A submission judged correct adds exactly 10;
    one judged incorrect, or whose request fails, adds nothing.  A
    [startLesson] whose fetch succeeds sets the score to 0, and one whose
    fetch fails leaves it alone. *)
Theorem score_grows_by_ten_and_resets_on_start (b : backend) (s : state) :
  (forall e, starts_lesson e = false ->
             (score s <= score (final b (handle s e) s))%Z) /\
  (score (final b loadCourses s) = score s /\
   score (final b seedDemo s) = score s /\
   (forall c, score (final b (loadLessons c) s) = score s) /\
   score (final b (next s) s) = score s /\
   score (final b resetToHome s) = score s) /\
  (forall ex v,
      current s = Some ex ->
      b (PostAnswer (exercise_id ex) (answer s)) = Some v ->
      score (final b (submitCurrent s) s)
      = if correct v then (score s + 10)%Z else score s) /\
  (forall ex,
      current s = Some ex ->
      b (PostAnswer (exercise_id ex) (answer s)) = None ->
      score (final b (submitCurrent s) s) = score s) /\
  (current s = None -> score (final b (submitCurrent s) s) = score s) /\
  (forall ls data,
      b (GetExercises (lesson_id ls)) = Some data ->
      score (final b (startLesson (Some ls)) s) = 0%Z) /\
  (forall ls,
      b (GetExercises (lesson_id ls)) = None ->
      score (final b (startLesson (Some ls)) s) = score s) /\
  score (final b (startLesson None) s) = score s.
Proof.
  repeat apply conj.
  - intros e He.
    destruct (handle_keeps_score_or_submits s e He) as [Hp|[Hs [ex Hc]]].
    + rewrite (preserves_run score b _ s Hp). lia.
    + rewrite Hs, (submitCurrent_score b s ex Hc).
      destruct (b (PostAnswer (exercise_id ex) (answer s))) as [v|];
        [destruct (correct v)|]; lia.
  - apply preserves_run, loadCourses_keeps_score.
  - apply preserves_run, seedDemo_keeps_score.
  - intro c. apply preserves_run, loadLessons_keeps_score.
  - apply preserves_run, next_keeps_score.
  - apply preserves_run, resetToHome_keeps_score.
  - intros ex v Hc Hb. now rewrite (submitCurrent_score b s ex Hc), Hb.
  - intros ex Hc Hb. now rewrite (submitCurrent_score b s ex Hc), Hb.
  - intro Hc. unfold final. now rewrite submitCurrent_idle.
  - intros ls data Hb. unfold final. now rewrite startLesson_run, Hb.
  - intros ls Hb. unfold final. now rewrite startLesson_run, Hb.
  - reflexivity.
Qed.

Lemma score_grows_by_ten_and_resets_on_start_witness :
  let s := Sample.reviewing "hola" None in
  let yes := Sample.serving [Sample.hola] Sample.right in
  let no := Sample.serving [Sample.hola] Sample.wrong in
  (starts_lesson ClickCheck = false /\
   current s = Some Sample.hola /\
   yes (PostAnswer "e1" "hola") = Some Sample.right /\
   no (PostAnswer "e1" "hola") = Some Sample.wrong /\
   unreachable (PostAnswer "e1" "hola") = None /\
   yes (GetExercises "l1") = Some [Sample.hola] /\
   unreachable (GetExercises "l1") = None) /\
  (score s <= score (final yes (handle s ClickCheck) s))%Z /\
  score (final yes (submitCurrent s) s) = 20%Z /\
  score (final no (submitCurrent s) s) = 10%Z /\
  score (final unreachable (submitCurrent s) s) = 10%Z /\
  score (final yes (startLesson (Some Sample.greetings)) s) = 0%Z /\
  score (final unreachable (startLesson (Some Sample.greetings)) s) = 10%Z.
Proof.
  intros s yes no.
  destruct (score_grows_by_ten_and_resets_on_start yes s)
    as (Hev & _ & Hok & _ & _ & Hstart & _ & _).
  destruct (score_grows_by_ten_and_resets_on_start no s)
    as (_ & _ & Hko & _).
  destruct (score_grows_by_ten_and_resets_on_start unreachable s)
    as (_ & _ & _ & Hfail & _ & _ & Hkeep & _).
  split; [repeat split|].
  split; [apply Hev; reflexivity|].
  split; [apply (Hok Sample.hola Sample.right); reflexivity|].
  split; [apply (Hko Sample.hola Sample.wrong); reflexivity|].
  split; [apply (Hfail Sample.hola); reflexivity|].
  split; [apply (Hstart Sample.greetings [Sample.hola]); reflexivity|].
  apply (Hkeep Sample.greetings); reflexivity.
Defined.

(** ** The last result *)

Lemma handle_on_result (s : state) (e : event) :
  step s = "result" -> handle s e = onResult s e.
Proof. unfold handle. now intros ->. Qed.

(** C7 (as the code has it): [next] clears the last result when it advances
    to a further exercise; on the last exercise it switches to the result
    screen and keeps the last result as it was.  A [startLesson] whose
    reply decodes, from the Start button or from Retry, clears it, and
    does so whatever the HTTP status of that reply; one whose request is
    rejected (no response, or a body that is not JSON) keeps it; and
    [resetToHome] clears it. *)
Theorem last_result_cleared_on_advance_and_start (b : backend) (s : state) :
  ((idx s + 1 < List.length (exercises s))%nat ->
   result (press_next s) = None) /\
  ((List.length (exercises s) <= idx s + 1)%nat ->
   result (press_next s) = result s /\ step (press_next s) = "result") /\
  (forall ls data,
      b (GetExercises (lesson_id ls)) = Some data ->
      result (final b (startLesson (Some ls)) s) = None) /\
  (forall ls data,
      step s = "result" -> selectedLesson s = Some ls ->
      b (GetExercises (lesson_id ls)) = Some data ->
      result (final b (handle s ClickRetry) s) = None) /\
  (forall sv ls ok data,
      sv (GetExercises (lesson_id ls)) = Responded ok (Some data) ->
      result (final (heard sv) (startLesson (Some ls)) s) = None) /\
  (forall sv ls,
      rejected sv (GetExercises (lesson_id ls)) ->
      result (final (heard sv) (startLesson (Some ls)) s) = result s) /\
  result (final b resetToHome s) = None.
Proof.
  repeat apply conj.
  - intro H. rewrite next_apply.
    destruct (Nat.leb_spec (List.length (exercises s)) (idx s + 1));
      [lia|reflexivity].
  - intro H. rewrite next_apply.
    destruct (Nat.leb_spec (List.length (exercises s)) (idx s + 1));
      [split; reflexivity|lia].
  - intros ls data Hb. unfold final. now rewrite startLesson_run, Hb.
  - intros ls data Hst Hsel Hb.
    rewrite (handle_on_result s ClickRetry Hst). unfold onResult, final.
    now rewrite Hsel, startLesson_run, Hb.
  - intros sv ls ok data H. unfold final.
    now rewrite startLesson_run, (heard_decoded sv _ ok _ H).
  - intros sv ls H. unfold final.
    now rewrite startLesson_run, (heard_rejected sv _ H).
  - reflexivity.
Qed.

Lemma last_result_cleared_on_advance_and_start_witness :
  let two := Sample.first_of_two in
  let one := Sample.reviewing "hola" (Some Sample.wrong) in
  let done := setStep "result" one in
  let b := Sample.serving [Sample.hola] Sample.right in
  ((idx two + 1 < List.length (exercises two))%nat /\
   (List.length (exercises one) <= idx one + 1)%nat /\
   b (GetExercises "l1") = Some [Sample.hola] /\
   step done = "result" /\ selectedLesson done = Some Sample.greetings /\
   Outage.erring [Sample.hola] (GetExercises "l1")
   = @Responded (GetExercises "l1") false (Some [Sample.hola]) /\
   rejected Outage.offline (GetExercises "l1")) /\
  result (press_next two) = None /\
  (result (press_next one) = Some Sample.wrong /\
   step (press_next one) = "result") /\
  result (final b (startLesson (Some Sample.greetings)) one) = None /\
  result (final b (handle done ClickRetry) done) = None /\
  result (final (heard (Outage.erring [Sample.hola]))
            (startLesson (Some Sample.greetings)) one) = None /\
  result (final (heard Outage.offline) (startLesson (Some Sample.greetings)) one)
  = Some Sample.wrong.
Proof.
  intros two one done b.
  assert (Hoff : rejected Outage.offline (GetExercises "l1"))
    by (left; reflexivity).
  destruct (last_result_cleared_on_advance_and_start b two) as (Hadv & _).
  destruct (last_result_cleared_on_advance_and_start b one)
    as (_ & Hlast & Hstart & _ & Herr & Hrej & _).
  destruct (last_result_cleared_on_advance_and_start b done)
    as (_ & _ & _ & Hretry & _).
  split; [repeat split; first [exact Hoff | vm_compute; lia]|].
  split; [apply Hadv; vm_compute; lia|].
  split; [apply Hlast; vm_compute; lia|].
  split; [apply (Hstart Sample.greetings [Sample.hola]); reflexivity|].
  split; [apply (Hretry Sample.greetings [Sample.hola]); reflexivity|].
  split; [apply (Herr (Outage.erring [Sample.hola]) Sample.greetings
                   false [Sample.hola]); reflexivity|].
  apply (Hrej Outage.offline Sample.greetings Hoff).
Defined.

(** C7 as stated fails: pressing Next on the last exercise of a lesson
    does not clear the last result; it is still set on the result
    screen. *)
Lemma next_on_last_exercise_keeps_result :
  let s := Sample.reviewing "hola" (Some Sample.wrong) in
  result s = Some Sample.wrong /\
  step (press_next s) = "result" /\
  result (press_next s) <> None.
Proof. repeat split. discriminate. Qed.

(** ** Leaving a lesson *)

(** C9: [resetToHome] goes back to the catalog and clears the selected
    lesson, the exercise list, the index, the draft and the last result; it
    sends nothing and leaves the score, like the busy flag, the courses,
    the selected course and the lessons, untouched.  The score goes back to
    0 at the next [startLesson] whose fetch succeeds. *)
Theorem resetToHome_clears_session_not_score (b : backend) (s : state) :
  let s' := final b resetToHome s in
  (step s' = "home" /\ selectedLesson s' = None /\ exercises s' = [] /\
   idx s' = 0 /\ answer s' = "" /\ result s' = None) /\
  (score s' = score s /\ loading s' = loading s /\ courses s' = courses s /\
   selectedCourse s' = selectedCourse s /\ lessons s' = lessons s) /\
  calls b resetToHome s = [] /\
  (forall ls data,
      b (GetExercises (lesson_id ls)) = Some data ->
      score (final b (startLesson (Some ls)) s') = 0%Z).
Proof.
  cbn zeta. repeat apply conj; try reflexivity.
  intros ls data Hb. unfold final at 1. now rewrite startLesson_run, Hb.
Qed.

Lemma resetToHome_clears_session_not_score_witness :
  let b := Sample.serving [Sample.hola] Sample.right in
  let s := Sample.first_of_two in
  let s' := final b resetToHome s in
  b (GetExercises "l1") = Some [Sample.hola] /\
  score s' = 10%Z /\ exercises s' = [] /\ result s' = None /\
  score (final b (startLesson (Some Sample.greetings)) s') = 0%Z.
Proof.
  intros b s s'.
  destruct (resetToHome_clears_session_not_score b s)
    as ((_ & _ & Hex & _ & _ & Hres) & (Hsc & _) & _ & Hstart).
  split; [reflexivity|].
  split; [exact Hsc|]. split; [exact Hex|]. split; [exact Hres|].
  apply (Hstart Sample.greetings [Sample.hola]); reflexivity.
Defined.

(** * Further properties of the handlers *)

(** ** Loading the catalog *)

Lemma loadCourses_cases (b : backend) (s : state) :
  (b GetCourses = None ->
   final b loadCourses s = s /\ calls b loadCourses s = [GetCourses]) /\
  (b GetCourses = Some [] ->
   final b loadCourses s = setCourses [] s /\
   calls b loadCourses s = [GetCourses]) /\
  (forall c rest,
      b GetCourses = Some (c :: rest) ->
      let s' := final b loadCourses s in
      courses s' = c :: rest /\ selectedCourse s' = Some c /\
      selectedLesson s' = None /\ exercises s' = [] /\
      lessons s' = match b (GetLessons (course_id c)) with
                   | Some data => Array_sort by_order data
                   | None => []
                   end /\
      calls b loadCourses s = [GetCourses; GetLessons (course_id c)]) /\
  (let s' := final b loadCourses s in
   idx s' = idx s /\ score s' = score s /\ step s' = step s /\
   answer s' = answer s /\ result s' = result s /\ loading s' = loading s).
Proof.
  unfold calls, final. rewrite loadCourses_run.
  split; [|split; [|split]].
  - intros ->. split; reflexivity.
  - intros ->. split; reflexivity.
  - intros c rest ->. unfold final. rewrite loadLessons_run.
    cbn. destruct (b (GetLessons (course_id c))); repeat split.
  - destruct (b GetCourses) as [[|c rest]|]; try (repeat split; fail).
    unfold final. rewrite loadLessons_run.
    destruct (b (GetLessons (course_id c))); repeat split.
Qed.

(** X1: when the course request is rejected (no response, or a body that
    is not JSON), [loadCourses] changes nothing at all.  An empty course
    list replaces the course list only: the course selected before and the
    lessons on display stay, and no lesson request is sent.  Otherwise the
    first course fetched becomes the selected one and exactly one lesson
    request follows, for that course; its lessons are shown sorted, or no
    lessons if that second request is rejected.  An error status is no
    failure: whatever the status, a body that decodes to a course list
    becomes the course list.  Index, score, screen, draft, last result and
    busy flag are never touched. *)
Theorem loadCourses_outcomes (b : backend) (s : state) :
  (b GetCourses = None ->
   final b loadCourses s = s /\ calls b loadCourses s = [GetCourses]) /\
  (b GetCourses = Some [] ->
   final b loadCourses s = setCourses [] s /\
   calls b loadCourses s = [GetCourses]) /\
  (forall c rest,
      b GetCourses = Some (c :: rest) ->
      let s' := final b loadCourses s in
      courses s' = c :: rest /\ selectedCourse s' = Some c /\
      selectedLesson s' = None /\ exercises s' = [] /\
      lessons s' = match b (GetLessons (course_id c)) with
                   | Some data => Array_sort by_order data
                   | None => []
                   end /\
      calls b loadCourses s = [GetCourses; GetLessons (course_id c)]) /\
  (let s' := final b loadCourses s in
   idx s' = idx s /\ score s' = score s /\ step s' = step s /\
   answer s' = answer s /\ result s' = result s /\ loading s' = loading s) /\
  (forall sv,
      rejected sv GetCourses ->
      final (heard sv) loadCourses s = s /\
      calls (heard sv) loadCourses s = [GetCourses]) /\
  (forall sv ok data,
      sv GetCourses = Responded ok (Some data) ->
      courses (final (heard sv) loadCourses s) = data).
Proof.
  destruct (loadCourses_cases b s) as (H1 & H2 & H3 & H4).
  split; [exact H1|]. split; [exact H2|]. split; [exact H3|].
  split; [exact H4|]. split.
  - intros sv Hr.
    apply (proj1 (loadCourses_cases (heard sv) s)).
    now apply heard_rejected.
  - intros sv ok data H.
    pose proof (heard_decoded sv GetCourses ok _ H) as Hd.
    destruct data as [|c rest].
    + destruct (proj1 (proj2 (loadCourses_cases (heard sv) s))) as [E _];
        [now apply Hd|]. now rewrite E.
    + destruct (proj1 (proj2 (proj2 (loadCourses_cases (heard sv) s)))
                  c rest) as [E _]; [now apply Hd|]. exact E.
Qed.

Lemma loadCourses_outcomes_witness :
  let s := Sample.first_of_two in
  let b := Sample.serving [] Sample.right in
  (unreachable GetCourses = None /\
   Sample.empty_catalog GetCourses = Some [] /\
   b GetCourses = Some [Sample.spanish] /\
   rejected Outage.offline GetCourses /\
   rejected (Outage.erring []) GetCourses /\
   Outage.erring_catalog [Sample.spanish] GetCourses
   = @Responded GetCourses false (Some [Sample.spanish])) /\
  final unreachable loadCourses s = s /\
  final Sample.empty_catalog loadCourses s = setCourses [] s /\
  selectedCourse (final b loadCourses s) = Some Sample.spanish /\
  map lesson_id (lessons (final b loadCourses s)) = ["x"; "y"; "w"; "z"] /\
  calls b loadCourses s = [GetCourses; GetLessons "c1"] /\
  final (heard Outage.offline) loadCourses s = s /\
  final (heard (Outage.erring [])) loadCourses s = s /\
  courses (final (heard (Outage.erring_catalog [Sample.spanish])) loadCourses s)
  = [Sample.spanish].
Proof.
  intros s b.
  assert (R1 : rejected Outage.offline GetCourses) by (left; reflexivity).
  assert (R2 : rejected (Outage.erring []) GetCourses)
    by (right; exists false; reflexivity).
  destruct (loadCourses_outcomes unreachable s) as (Hfail & _).
  destruct (loadCourses_outcomes Sample.empty_catalog s) as (_ & Hnone & _).
  destruct (loadCourses_outcomes b s)
    as (_ & _ & Hsome & _ & Hrej & Herr).
  destruct (Hsome Sample.spanish [] eq_refl) as (_ & Hsel & _ & _ & Hls & Hc).
  split; [repeat split; assumption|].
  split; [apply Hfail; reflexivity|].
  split; [apply Hnone; reflexivity|].
  split; [exact Hsel|].
  split; [rewrite Hls; reflexivity|].
  split; [exact Hc|].
  split; [exact (proj1 (Hrej Outage.offline R1))|].
  split; [exact (proj1 (Hrej (Outage.erring []) R2))|].
  exact (Herr (Outage.erring_catalog [Sample.spanish]) false
           [Sample.spanish] eq_refl).
Defined.



(** X3: loading the lessons of a course twice in a row against the same
    backend gives the state the first load gave, whether the fetch
    succeeds or fails; the same holds for [loadCourses]. *)
Theorem reloading_changes_nothing (b : backend) (c : course) (s : state) :
  final b (loadLessons c) (final b (loadLessons c) s)
  = final b (loadLessons c) s /\
  final b loadCourses (final b loadCourses s) = final b loadCourses s.
Proof.
  unfold final. rewrite !loadCourses_run, !loadLessons_run. split.
  - destruct (b (GetLessons (course_id c))); reflexivity.
  - destruct (b GetCourses) as [[|c' rest]|]; try reflexivity.
    unfold final. rewrite !loadLessons_run.
    destruct (b (GetLessons (course_id c'))); reflexivity.
Qed.

(** X4: a lesson list that is already ascending by [order] comes out of
    the sort exactly as it went in; in particular sorting twice is sorting
    once. *)
Theorem sort_fixes_ascending (l : list lesson) :
  (ascending l -> Array_sort by_order l = l) /\
  Array_sort by_order (Array_sort by_order l) = Array_sort by_order l.
Proof.
  assert (D : forall x y, by_order x y = (order_or_0 x - order_or_0 y)%Z)
    by reflexivity.
  assert (F : forall m, ascending m -> Array_sort by_order m = m).
  { intros m Hm. apply stable_ordering_unique.
    - now apply sort_ascending.
    - exact Hm.
    - intro k. now apply sort_stable. }
  split; [apply F|]. apply F. now apply sort_ascending.
Qed.

Lemma sort_fixes_ascending_witness :
  let l := [Sample.mk_lesson "n" None; Sample.mk_lesson "x" (Some 1%Z);
            Sample.mk_lesson "y" (Some 1%Z)] in
  ascending l /\ Array_sort by_order l = l.
Proof.
  intro l.
  assert (H : ascending l).
  { unfold ascending, l. repeat constructor; cbn; lia. }
  split; [exact H|].
  apply (proj1 (sort_fixes_ascending l)). exact H.
Defined.

(** ** What holds however requests and user actions interleave *)



Ltac uphold_by tac :=
  repeat match goal with
    | |- upholds _ _ (andThen (match ?r with _ => _ end) _) => destruct r
    | |- upholds _ _ (match ?r with _ => _ end) => destruct r
    | |- upholds _ _ (if ?c then _ else _) => destruct c
    | |- upholds _ _ _ => progress cbn [upholds andThen]
    | |- (forall _, _) /\ _ => split
    | |- forall _, _ => intro
    end;
  tac.



















(** ** A reply that arrives late *)

Lemma nth_error_last (ws : list pending) (w : pending) :
  nth_error (ws ++ [w])%list (List.length ws) = Some w.
Proof.
  rewrite nth_error_app2 by lia. now rewrite Nat.sub_diag.
Qed.

Lemma without_last (ws : list pending) (w : pending) :
  without (List.length ws) (ws ++ [w])%list = ws.
Proof.
  induction ws as [|x ws IH]; [reflexivity|].
  unfold without in *. cbn. f_equal. exact IH.
Qed.

(** X6: nothing checks a reply against the state it arrives in.  On the
    result screen, press Retry and then, before the exercises have come
    back, Back to course: the catalog is shown.  When the exercise reply
    then arrives it is applied all the same: the play step is entered with
    the fetched exercises, index 0 and score 0, although no lesson is
    selected any more. *)
Theorem late_exercises_reopen_play
  (c : config) (ls : lesson) (b : backend) (data : list exercise) :
  step (st c) = "result" ->
  selectedLesson (st c) = Some ls ->
  b (GetExercises (lesson_id ls)) = Some data ->
  let c1 := perform c (Fire ClickRetry) in
  let c2 := perform c1 (Fire ClickBack) in
  let c3 := perform c2 (Settle (List.length (inflight c)) b) in
  (step (st c1) = "result" /\ loading (st c1) = true) /\
  (step (st c2) = "home" /\ selectedLesson (st c2) = None /\
   exercises (st c2) = []) /\
  (step (st c3) = "play" /\ exercises (st c3) = data /\
   idx (st c3) = 0 /\ score (st c3) = 0%Z /\
   selectedLesson (st c3) = None /\ loading (st c3) = false /\
   inflight c3 = inflight c).
Proof.
  intros Hst Hsel Hb c1 c2 c3.
  assert (E1 : exists k,
             c1 = {| st := setLoading true (setSelectedLesson (Some ls) (st c));
                     inflight := (inflight c ++
                       [existT _ (GetExercises (lesson_id ls)) k])%list |} /\
             forall s', advance (k (Some data)) s'
               = (setLoading false (setStep "play" (setResult None
                    (setAnswer "" (setScore (fun _ => 0%Z) (setIdx 0
                       (setExercises data s')))))), None)).
  { unfold c1. cbn [perform]. rewrite (handle_on_result _ _ Hst).
    unfold onResult. rewrite Hsel. eexists. split; reflexivity. }
  destruct E1 as (k & E1 & Hk).
  assert (E2 : c2 = {| st := setResult None (setAnswer "" (setIdx 0
                         (setExercises [] (setSelectedLesson None
                            (setStep "home" (st c1))))));
                       inflight := inflight c1 |}).
  { unfold c2. cbn [perform].
    rewrite (handle_on_result (st c1) ClickBack)
      by (rewrite E1; exact Hst).
    reflexivity. }
  assert (E3 : c3 = {| st := fst (advance (k (Some data)) (st c2));
                       inflight := inflight c |}).
  { unfold c3. cbn [perform]. rewrite E2. cbn [inflight st].
    rewrite E1. cbn [inflight st].
    rewrite nth_error_last, without_last. cbn [projT1 projT2].
    rewrite Hb. unfold spawn. rewrite Hk. reflexivity. }
  split; [|split].
  - rewrite E1. split; [exact Hst|reflexivity].
  - rewrite E2. repeat split.
  - rewrite E3, Hk. repeat split.
    rewrite E2. reflexivity.
Qed.

Lemma late_exercises_reopen_play_witness :
  let c := {| st := Sample.finished; inflight := [] |} in
  let c3 := perform (perform (perform c (Fire ClickRetry)) (Fire ClickBack))
              (Settle 0 Sample.strict) in
  (step (st c) = "result" /\
   selectedLesson (st c) = Some Sample.greetings /\
   Sample.strict (GetExercises "l1") = Some [Sample.hola; Sample.adios]) /\
  step (st c3) = "play" /\ selectedLesson (st c3) = None /\
  score (st c3) = 0%Z /\ inflight c3 = [].
Proof.
  intros c c3.
  destruct (late_exercises_reopen_play c Sample.greetings Sample.strict
              [Sample.hola; Sample.adios] eq_refl eq_refl eq_refl)
    as (_ & _ & Hplay & _ & _ & Hscore & Hsel & _ & Hfl).
  split; [repeat split|].
  split; [exact Hplay|]. split; [exact Hsel|]. split; [exact Hscore|exact Hfl].
Defined.

(** ** Which handler a user action reaches, and when *)

Ltac step_facts :=
  repeat match goal with
    | H : (_ =? _) = true |- _ => apply String.eqb_eq in H
    | H : (_ =? _) = false |- _ => apply String.eqb_neq in H
    | H : (_ || _)%bool = false |- _ =>
        apply orb_false_elim in H; destruct H
    end.

Lemma handle_cases (s : state) (e : event) :
  handle s e = Done \/
  (step s = "home" /\
   (handle s e = seedDemo \/
    exists c, handle s e = (setSelectedCourse (Some c) ;; loadLessons c))) \/
  ((step s = "home" /\ loading s = false \/ step s = "result") /\
   exists l, handle s e = startLesson l) \/
  (step s = "play" /\
   exists ex v, current s = Some ex /\ handle s e = (setAnswer v ;; Done) /\
                (exercise_type ex = "mcq" -> In v (declared ex))) \/
  (step s = "play" /\ result s = None /\ loading s = false /\
   answer s <> "" /\ (exists ex, current s = Some ex) /\
   e = ClickCheck /\ handle s e = submitCurrent s) \/
  (step s = "play" /\ (exists r, result s = Some r) /\
   (exists ex, current s = Some ex) /\ handle s e = next s) \/
  ((step s = "play" \/ step s = "result") /\ handle s e = resetToHome).
Proof.
  unfold handle, onHome, onPlay, onResult.
  destruct e;
    repeat match goal with
      | |- context [if ?c then _ else _] => destruct c eqn:?
      | |- context [match ?x with _ => _ end] => destruct x eqn:?
      end;
    step_facts;
    first
      [ left; reflexivity
      | right; left; split; [assumption|]; left; reflexivity
      | right; left; split; [assumption|]; right; eexists; reflexivity
      | right; right; left; split;
        [first [left; split; first [assumption | reflexivity]
               | right; assumption]
        | eexists; reflexivity]
      | do 3 right; left; split; [assumption|];
        do 2 eexists; split; [reflexivity|]; split; [reflexivity|];
        first
          [ intro; congruence
          | intros _; unfold declared;
            match goal with
            | H : exercise_options _ = Some _ |- _ => rewrite H
            end;
            eapply nth_error_In; eassumption ]
      | do 4 right; left; repeat split;
        first [assumption | eexists; reflexivity | reflexivity]
      | do 5 right; left; repeat split;
        first [assumption | eexists; reflexivity | reflexivity]
      | do 6 right; split;
        [first [left; assumption | right; assumption] | reflexivity] ].
Qed.

(** ** What holds when every request settles before the next action *)

Lemma upholds_run (P : state -> Prop) (b : backend) (p : proc) :
  forall (pre : state -> state) (s : state),
    upholds P pre p -> P s -> P (fst (run b p (pre s))).
Proof.
  induction p as [|f p IH|q c IH]; intros pre s Hu Hs; simpl in *.
  - now apply Hu.
  - apply (IH (fun s => f (pre s)) s Hu Hs).
  - destruct Hu as [Hpre Hk].
    specialize (IH (b q) (fun s => s) (pre s) (Hk (b q)) (Hpre s Hs)).
    cbn beta in IH. now destruct (run b (c (b q)) (pre s)).
Qed.

(** On the catalog with the index in bounds. *)
Ltac home_step :=
  cbv beta in *;
  match goal with
  | H : step _ = "home" /\ in_bounds _ |- _ =>
      destruct H as [Hh Hb]; unfold in_bounds in *; cbn in *;
      split; first [exact Hh | exact Hb | now left]
  end.

Lemma seedDemo_stays_home :
  upholds (fun s => step s = "home" /\ in_bounds s) (fun s => s) seedDemo.
Proof.
  unfold seedDemo, loadCourses, loadLessons.
  uphold_by home_step.
Qed.

Lemma loadCourses_stays_home :
  upholds (fun s => step s = "home" /\ in_bounds s) (fun s => s) loadCourses.
Proof.
  unfold loadCourses, loadLessons. uphold_by home_step.
Qed.

Lemma course_click_stays_home (c : course) :
  upholds (fun s => step s = "home" /\ in_bounds s) (fun s => s)
    (setSelectedCourse (Some c) ;; loadLessons c).
Proof. unfold loadLessons. uphold_by home_step. Qed.

Lemma fair_on_home (s : state) : step s = "home" -> fair_score s.
Proof. intro H. split; rewrite H; discriminate. Qed.

Lemma current_in_bounds (s : state) (ex : exercise) :
  current s = Some ex -> idx s < List.length (exercises s).
Proof. intro H. apply nth_error_Some. unfold current in H. congruence. Qed.

Lemma event_keeps_fair (b : backend) (s : state) (e : event) :
  in_bounds s -> fair_score s ->
  in_bounds (final b (handle s e) s) /\ fair_score (final b (handle s e) s).
Proof.
  intros Hb Hf.
  destruct (handle_cases s e)
    as [E|[[Hh [E|[c E]]]|[[Hh [l E]]|[[Hp (ex & v & _ & E & _)]
                                      |[Hsub|[Hnext|[Hh E]]]]]]];
    try rewrite E.
  - now split.
  - pose proof (upholds_run _ b _ (fun s => s) s seedDemo_stays_home
                  (conj Hh Hb)) as [H1 H2].
    split; [exact H2|now apply fair_on_home].
  - pose proof (upholds_run _ b _ (fun s => s) s (course_click_stays_home c)
                  (conj Hh Hb)) as [H1 H2].
    split; [exact H2|now apply fair_on_home].
  - destruct l as [ls|]; unfold final.
    + rewrite startLesson_run.
      destruct (b (GetExercises (lesson_id ls))) as [data|].
      * split.
        -- unfold in_bounds. cbn. destruct data; [now left|right; cbn; lia].
        -- split; cbn -[Z.mul Z.add Z.of_nat]; [intros _; lia|discriminate].
      * now split.
    + rewrite startLesson_null_run. now split.
  - now split.
  - destruct Hsub as (Hp & Hr & Hl & Ha & [ex Hc] & _ & E). rewrite E.
    unfold final. rewrite (submitCurrent_run b s ex Hc).
    destruct Hf as [Hplay Hres]. specialize (Hplay Hp). rewrite Hr in Hplay.
    destruct (b (PostAnswer (exercise_id ex) (answer s))) as [data|].
    + split; [exact Hb|]. split; cbn -[Z.mul Z.add Z.of_nat].
      * intros _. destruct (correct data); lia.
      * rewrite Hp. discriminate.
    + split; [exact Hb|]. split; cbn -[Z.mul Z.add Z.of_nat]; [|rewrite Hp; discriminate].
      intros _. rewrite Hr. exact Hplay.
  - destruct Hnext as (Hp & [r Hr] & [ex Hc] & E). rewrite E.
    unfold final. rewrite next_run. cbn [fst]. rewrite next_apply.
    pose proof (current_in_bounds s ex Hc) as Hin.
    destruct Hf as [Hplay _]. specialize (Hplay Hp). rewrite Hr in Hplay.
    destruct (Nat.leb_spec (List.length (exercises s)) (idx s + 1)).
    + split; [exact Hb|]. split; cbn -[Z.mul Z.add Z.of_nat]; [discriminate|]. intros _. lia.
    + split; [right; cbn; lia|]. split; cbn -[Z.mul Z.add Z.of_nat]; [|rewrite Hp; discriminate].
      intros _. lia.
  - unfold final. rewrite resetToHome_run. split; [now left|].
    now apply fair_on_home.
Qed.

Lemma played_in_bounds_and_fair (s : state) :
  played s -> in_bounds s /\ fair_score s.
Proof.
  induction 1 as [b|s b e Hs [Hb Hf]].
  - pose proof (upholds_run _ b _ (fun s => s) initial loadCourses_stays_home
                  (conj eq_refl (or_introl eq_refl))) as [H1 H2].
    split; [exact H2|now apply fair_on_home].
  - now apply event_keeps_fair.
Qed.

(** X7: when every request settles before the user acts again, no exercise
    is ever paid twice.  On the play step the score is at most 10 per
    exercise already passed, plus 10 once the current one has a verdict; on
    the result screen it is at most 10 times the number of exercises. *)
Theorem score_at_most_ten_per_exercise (s : state) :
  played s ->
  (step s = "play" ->
   (score s <= 10 * Z.of_nat (idx s)
               + match result s with Some _ => 10 | None => 0 end)%Z) /\
  (step s = "result" ->
   (score s <= 10 * Z.of_nat (List.length (exercises s)))%Z).
Proof.
  intro H. exact (proj2 (played_in_bounds_and_fair s H)).
Qed.

Lemma score_at_most_ten_per_exercise_witness :
  let b := Sample.strict in
  let s1 := final b loadCourses initial in
  let s2 := final b (handle s1 (ClickStart 0)) s1 in
  let s3 := final b (handle s2 (TypeAnswer "hola")) s2 in
  let s4 := final b (handle s3 ClickCheck) s3 in
  played s4 /\
  (step s4 = "play" /\ idx s4 = 0 /\ score s4 = 10%Z) /\
  (step s4 = "play" ->
   (score s4 <= 10 * Z.of_nat (idx s4)
                + match result s4 with Some _ => 10 | None => 0 end)%Z).
Proof.
  intros b s1 s2 s3 s4.
  assert (H : played s4).
  { apply played_event, played_event, played_event, played_mount. }
  split; [exact H|]. split; [repeat split|].
  exact (proj1 (score_at_most_ten_per_exercise s4 H)).
Defined.

(** ** The draft answer *)

Lemma catalog_keeps_idx :
  preserves idx seedDemo /\
  forall c, preserves idx (setSelectedCourse (Some c) ;; loadLessons c).
Proof.
  split; [|intro c]; unfold seedDemo, loadCourses, loadLessons; frame.
Qed.

(** X8: whenever a user action, run to completion, leaves the index
    different from what it was, the draft answer is empty afterwards. *)
Theorem draft_cleared_when_index_changes
  (b : backend) (s : state) (e : event) :
  idx (final b (handle s e) s) <> idx s ->
  answer (final b (handle s e) s) = "".
Proof.
  destruct (handle_cases s e)
    as [E|[[Hh [E|[c E]]]|[[Hh [l E]]|[[Hp (ex & v & _ & E & _)]
                                      |[Hsub|[Hnext|[Hh E]]]]]]];
    try rewrite E.
  - intro H. now elim H.
  - intro H. elim H. apply preserves_run, catalog_keeps_idx.
  - intro H. elim H. apply preserves_run. apply (proj2 catalog_keeps_idx).
  - destruct l as [ls|]; unfold final.
    + rewrite startLesson_run.
      destruct (b (GetExercises (lesson_id ls))); [reflexivity|].
      intro H. now elim H.
    + rewrite startLesson_null_run. intro H. now elim H.
  - intro H. now elim H.
  - destruct Hsub as (_ & _ & _ & _ & [ex Hc] & _ & E). rewrite E.
    unfold final. rewrite (submitCurrent_run b s ex Hc).
    intro H. elim H.
    destruct (b (PostAnswer (exercise_id ex) (answer s))); reflexivity.
  - destruct Hnext as (_ & _ & _ & E). rewrite E.
    unfold final. rewrite next_run. cbn [fst]. rewrite next_apply.
    destruct (List.length (exercises s) <=? idx s + 1)%nat; [|reflexivity].
    intro H. now elim H.
  - reflexivity.
Qed.

Lemma draft_cleared_when_index_changes_witness :
  let s := Sample.first_of_two in
  idx (final unreachable (handle s ClickNext) s) <> idx s /\
  answer (final unreachable (handle s ClickNext) s) = "".
Proof.
  intro s.
  assert (H : idx (final unreachable (handle s ClickNext) s) <> idx s)
    by discriminate.
  split; [exact H|].
  apply (draft_cleared_when_index_changes unreachable s ClickNext H).
Defined.

(** ** What is posted for checking *)

Lemma asks_run (ok : request -> Prop) (b : backend) (p : proc) (s : state) :
  asks ok p -> Forall ok (calls b p s).
Proof.
  unfold calls. revert s.
  induction p as [|f p IH|q c IH]; intros s Hp; simpl in *.
  - constructor.
  - now apply IH.
  - destruct Hp as [Hq Hk]. specialize (IH (b q) s (Hk (b q))).
    destruct (run b (c (b q)) s). cbn in *. now constructor.
Qed.

Ltac asking :=
  repeat match goal with
    | |- asks _ (andThen (match ?r with _ => _ end) _) => destruct r
    | |- asks _ (match ?r with _ => _ end) => destruct r
    | |- asks _ (if ?c then _ else _) => destruct c
    | |- asks _ _ => progress cbn [asks andThen]
    | |- forall _, _ => intro
    | |- _ /\ _ => split
    | |- True => exact I
    | |- ~ _ => let H := fresh in intro H; exact H
    end.

Lemma others_post_no_answer :
  asks (fun q => ~ is_answer q) seedDemo /\
  (forall c, asks (fun q => ~ is_answer q)
               (setSelectedCourse (Some c) ;; loadLessons c)) /\
  (forall l, asks (fun q => ~ is_answer q) (startLesson l)) /\
  (forall s, asks (fun q => ~ is_answer q) (next s)) /\
  asks (fun q => ~ is_answer q) resetToHome.
Proof.
  unfold seedDemo, loadCourses, loadLessons, startLesson, next, resetToHome.
  repeat split; intros; asking.
Qed.

Lemma no_answer_among (b : backend) (p : proc) (s : state) (x a : string) :
  asks (fun q => ~ is_answer q) p -> ~ In (PostAnswer x a) (calls b p s).
Proof.
  intros Hp Hin. apply (asks_run _ b p s) in Hp.
  rewrite Forall_forall in Hp. exact (Hp _ Hin I).
Qed.

Lemma posted_answer_origin
  (b : backend) (s : state) (e : event) (x a : string) :
  In (PostAnswer x a) (calls b (handle s e) s) ->
  e = ClickCheck /\ step s = "play" /\ result s = None /\
  loading s = false /\ a = answer s /\ a <> "" /\
  exists ex, current s = Some ex /\ x = exercise_id ex.
Proof.
  destruct others_post_no_answer as (Hseed & Hcourse & Hstart & Hnext & Hreset).
  destruct (handle_cases s e)
    as [E|[[Hh [E|[c E]]]|[[Hh [l E]]|[[Hp (ex & v & _ & E & _)]
                                      |[Hsub|[Hn|[Hh E]]]]]]];
    try rewrite E; intro Hin.
  - destruct Hin.
  - now apply no_answer_among in Hin.
  - now apply no_answer_among in Hin.
  - now apply no_answer_among in Hin.
  - destruct Hin.
  - destruct Hsub as (Hp & Hr & Hl & Ha & [ex Hc] & He & E).
    rewrite E in Hin. unfold calls in Hin.
    rewrite (submitCurrent_run b s ex Hc) in Hin. cbn in Hin.
    destruct Hin as [Hq|[]]. injection Hq as <- <-.
    repeat split; try assumption. now exists ex.
  - destruct Hn as (_ & _ & _ & E). rewrite E in Hin.
    now apply no_answer_among in Hin.
  - now apply no_answer_among in Hin.
Qed.

(** X9: an answer is posted for checking only by the Check button, on the
    play step, while no verdict is shown and the busy flag is down; what is
    posted is the id of the current exercise with the draft as it stands,
    and the draft is not empty.  No other user action posts an answer. *)
Theorem answers_are_posted_by_check_only
  (b : backend) (s : state) (e : event) (x a : string) :
  In (PostAnswer x a) (calls b (handle s e) s) ->
  e = ClickCheck /\ step s = "play" /\ result s = None /\
  loading s = false /\ a = answer s /\ a <> "" /\
  exists ex, current s = Some ex /\ x = exercise_id ex.
Proof. apply posted_answer_origin. Qed.

Lemma answers_are_posted_by_check_only_witness :
  let s := Sample.reviewing "hola" None in
  In (PostAnswer "e1" "hola") (calls Sample.strict (handle s ClickCheck) s) /\
  step s = "play" /\ result s = None /\ loading s = false /\
  "hola" = answer s /\ "hola" <> "".
Proof.
  intro s.
  assert (H : In (PostAnswer "e1" "hola")
                 (calls Sample.strict (handle s ClickCheck) s))
    by (left; reflexivity).
  destruct (answers_are_posted_by_check_only Sample.strict s ClickCheck
              "e1" "hola" H) as (_ & Hp & Hr & Hl & Ha & Hne & _).
  repeat split; assumption.
Defined.

Lemma check_enabled (s : state) (ex : exercise) :
  step s = "play" -> current s = Some ex -> result s = None ->
  loading s = false -> answer s <> "" ->
  handle s ClickCheck = submitCurrent s.
Proof.
  intros Hp Hc Hr Hl Ha. unfold handle, onPlay. rewrite Hp, Hc, Hr, Hl. cbn.
  apply String.eqb_neq in Ha. now rewrite Ha.
Qed.

Lemma check_hidden_by_verdict (s : state) (v : verdict) :
  result s = Some v -> handle s ClickCheck = Done.
Proof.
  intro Hr. unfold handle, onHome, onPlay, onResult. rewrite Hr.
  destruct (step s =? "home"), (step s =? "play"), (step s =? "result"),
    (current s); reflexivity.
Qed.

(** X10: a check whose request is rejected (no response, or a body that is
    not JSON) puts everything back as it was before Check was pressed,
    draft included, so the same answer can be submitted again at once.  An
    error status is no such failure: whatever the status, a body that
    decodes to a verdict is installed as the last result, and Check is
    then no longer on offer. *)
Theorem failed_check_can_be_repeated
  (sv : server) (s : state) (ex : exercise) :
  step s = "play" -> current s = Some ex -> result s = None ->
  loading s = false -> answer s <> "" ->
  let q := PostAnswer (exercise_id ex) (answer s) in
  let s' := final (heard sv) (handle s ClickCheck) s in
  (rejected sv q ->
   s' = s /\
   calls (heard sv) (handle s ClickCheck) s = [q] /\
   handle s' ClickCheck = submitCurrent s) /\
  (forall ok v,
      sv q = Responded ok (Some v) ->
      result s' = Some v /\ answer s' = answer s /\
      handle s' ClickCheck = Done).
Proof.
  intros Hp Hc Hr Hl Ha q s'.
  pose proof (check_enabled s ex Hp Hc Hr Hl Ha) as E.
  assert (Hq : q <> PostSeed) by discriminate.
  split.
  - intro Hrej. pose proof (heard_rejected sv q Hrej Hq) as Hb.
    assert (F : s' = s).
    { unfold s', final. rewrite E, (submitCurrent_run _ s ex Hc).
      fold q. rewrite Hb. cbn. destruct s; cbn in *. now subst. }
    split; [exact F|]. split.
    + rewrite E. unfold calls. now rewrite (submitCurrent_run _ s ex Hc).
    + now rewrite F.
  - intros ok v H. pose proof (heard_decoded sv q ok _ H Hq) as Hb.
    assert (F : s' = setLoading false
                  (setScore (fun n => if correct v then n + 10 else n)%Z
                     (setResult (Some v) s))).
    { unfold s', final. rewrite E, (submitCurrent_run _ s ex Hc).
      fold q. now rewrite Hb. }
    rewrite F. repeat split.
    now apply (check_hidden_by_verdict _ v).
Qed.

Lemma failed_check_can_be_repeated_witness :
  let s := Sample.reviewing "hola" None in
  let q := PostAnswer "e1" "hola" in
  (step s = "play" /\ current s = Some Sample.hola /\ result s = None /\
   loading s = false /\ answer s <> "" /\
   rejected Outage.offline q /\
   Outage.erring_verdict Sample.wrong q = @Responded q false (Some Sample.wrong)) /\
  final (heard Outage.offline) (handle s ClickCheck) s = s /\
  calls (heard Outage.offline) (handle s ClickCheck) s = [q] /\
  result (final (heard (Outage.erring_verdict Sample.wrong))
            (handle s ClickCheck) s) = Some Sample.wrong.
Proof.
  intros s q.
  assert (Ha : answer s <> "") by discriminate.
  assert (Hr : rejected Outage.offline q) by (left; reflexivity).
  destruct (failed_check_can_be_repeated Outage.offline s Sample.hola
              eq_refl eq_refl eq_refl eq_refl Ha) as (Hrej & _).
  destruct (failed_check_can_be_repeated (Outage.erring_verdict Sample.wrong)
              s Sample.hola eq_refl eq_refl eq_refl eq_refl Ha) as (_ & Herr).
  destruct (Hrej Hr) as (F & C & _).
  destruct (Herr false Sample.wrong eq_refl) as (V & _).
  split; [repeat split; assumption|].
  split; [exact F|]. split; [exact C|exact V].
Defined.

(** ** Multiple-choice exercises *)

Lemma catalog_keeps_step :
  preserves step seedDemo /\
  forall c, preserves step (setSelectedCourse (Some c) ;; loadLessons c).
Proof.
  split; [|intro c]; unfold seedDemo, loadCourses, loadLessons; frame.
Qed.

Lemma fits_off_play (s : state) : step s <> "play" -> draft_fits s.
Proof. intros H Hp. now elim H. Qed.

Lemma event_keeps_draft (b : backend) (s : state) (e : event) :
  draft_fits s -> draft_fits (final b (handle s e) s).
Proof.
  intro Hf.
  destruct (handle_cases s e)
    as [E|[[Hh [E|[c E]]]|[[Hh [l E]]|[[Hp (ex & v & Hc & E & Hv)]
                                      |[Hsub|[Hn|[Hh E]]]]]]];
    try rewrite E.
  - exact Hf.
  - apply fits_off_play.
    rewrite (preserves_run step b _ s (proj1 catalog_keeps_step)), Hh.
    discriminate.
  - apply fits_off_play.
    rewrite (preserves_run step b _ s (proj2 catalog_keeps_step c)), Hh.
    discriminate.
  - destruct l as [ls|]; unfold final.
    + rewrite startLesson_run.
      destruct (b (GetExercises (lesson_id ls))); [|exact Hf].
      intros _ cur _ _. now left.
    + rewrite startLesson_null_run. exact Hf.
  - intros _ cur Hcur Hm. right. cbn in *.
    unfold current in *. cbn in Hcur.
    assert (cur = ex) by congruence. subst cur. now apply Hv.
  - destruct Hsub as (_ & _ & _ & _ & [ex Hc] & _ & E). rewrite E.
    unfold final. rewrite (submitCurrent_run b s ex Hc).
    destruct (b (PostAnswer (exercise_id ex) (answer s))); exact Hf.
  - destruct Hn as (Hp & _ & _ & E). rewrite E.
    unfold final. rewrite next_run. cbn [fst]. rewrite next_apply.
    destruct (List.length (exercises s) <=? idx s + 1)%nat.
    + apply fits_off_play. discriminate.
    + intros _ cur _ _. now left.
  - apply fits_off_play. discriminate.
Qed.

Lemma played_draft_fits (s : state) : played s -> draft_fits s.
Proof.
  induction 1 as [b|s b e Hs IH].
  - apply fits_off_play.
    destruct (upholds_run _ b _ (fun s => s) initial loadCourses_stays_home
                (conj eq_refl (or_introl eq_refl))) as [H _].
    cbv beta in H. unfold final. rewrite H. discriminate.
  - now apply event_keeps_draft.
Qed.

(** X11: when every request settles before the user acts again, the answer
    posted for a multiple-choice exercise is always one of the options that
    exercise declares: typing is ignored there, and the draft is cleared on
    every change of exercise. *)
Theorem multiple_choice_posts_a_declared_option
  (b : backend) (s : state) (e : event) (x a : string) (cur : exercise) :
  played s ->
  current s = Some cur -> exercise_type cur = "mcq" ->
  In (PostAnswer x a) (calls b (handle s e) s) ->
  x = exercise_id cur /\ In a (declared cur).
Proof.
  intros Hs Hc Hm Hin.
  destruct (posted_answer_origin b s e x a Hin)
    as (_ & Hp & _ & _ & Ha & Hne & ex & Hex & Hx).
  assert (ex = cur) by congruence. subst ex. split; [exact Hx|].
  destruct (played_draft_fits s Hs Hp cur Hc Hm) as [E|E].
  - congruence.
  - now rewrite Ha.
Qed.

Lemma multiple_choice_posts_a_declared_option_witness :
  let b := Sample.strict in
  let s1 := final b loadCourses initial in
  let s2 := final b (handle s1 (ClickStart 0)) s1 in
  let s3 := final b (handle s2 (TypeAnswer "hola")) s2 in
  let s4 := final b (handle s3 ClickCheck) s3 in
  let s5 := final b (handle s4 ClickNext) s4 in
  let s6 := final b (handle s5 (TypeAnswer "typed")) s5 in
  let s7 := final b (handle s6 (ClickOption 1)) s6 in
  (played s7 /\ current s7 = Some Sample.adios /\
   exercise_type Sample.adios = "mcq" /\
   In (PostAnswer "e2" "adios") (calls b (handle s7 ClickCheck) s7)) /\
  answer s6 = "" /\
  In "adios" (declared Sample.adios).
Proof.
  intros b s1 s2 s3 s4 s5 s6 s7.
  assert (H : played s7) by (do 6 apply played_event; apply played_mount).
  assert (Hin : In (PostAnswer "e2" "adios") (calls b (handle s7 ClickCheck) s7))
    by (left; reflexivity).
  split; [repeat split; assumption|]. split; [reflexivity|].
  exact (proj2 (multiple_choice_posts_a_declared_option b s7 ClickCheck
                  "e2" "adios" Sample.adios H eq_refl eq_refl Hin)).
Defined.

(** ** A lesson played to the end *)

Lemma skipn_cons_inv {A : Type} (i : nat) (l : list A) (x : A) (rest : list A) :
  skipn i l = x :: rest ->
  nth_error l i = Some x /\ skipn (S i) l = rest /\
  List.length l = i + 1 + List.length rest.
Proof.
  revert l. induction i as [|i IH]; intros [|y l] H; cbn in *;
    try discriminate.
  - injection H as -> ->. repeat split; try lia.
  - destruct (IH l H) as (H1 & H2 & H3). split; [exact H1|]. split; [exact H2|lia].
Qed.

Lemma round_outcome (b : backend) (s : state) (a : string)
  (ex : exercise) (v : verdict) :
  step s = "play" -> current s = Some ex -> result s = None ->
  loading s = false -> a <> "" -> judged b ex a = Some v ->
  let checked :=
    setLoading false
      (setScore (fun n => if correct v then n + 10 else n)%Z
         (setResult (Some v) (setAnswer a s))) in
  round b s a =
  if (List.length (exercises s) <=? idx s + 1)%nat
  then setStep "result" checked
  else setResult None (setAnswer "" (setIdx (idx s + 1) checked)).
Proof.
  intros Hp Hc Hr Hl Ha Hj checked. unfold round.
  assert (E1 : handle (setAnswer a s) ClickCheck = submitCurrent (setAnswer a s)).
  { unfold handle, onPlay. cbn [step setAnswer]. rewrite Hp. cbn [String.eqb].
    unfold current in *. cbn [exercises idx result loading answer setAnswer].
    rewrite Hc, Hr, Hl. apply String.eqb_neq in Ha. now rewrite Ha. }
  assert (S2 : final b (submitCurrent (setAnswer a s)) (setAnswer a s)
               = checked).
  { unfold final. rewrite (submitCurrent_run b (setAnswer a s) ex Hc).
    change (answer (setAnswer a s)) with a.
    unfold judged in Hj. now rewrite Hj. }
  rewrite E1, S2.
  assert (E2 : handle checked ClickNext = next checked).
  { unfold handle, onPlay. cbn [step checked setLoading setScore setResult setAnswer].
    rewrite Hp. cbn [String.eqb].
    unfold current in *. cbn. rewrite Hc. reflexivity. }
  rewrite E2. unfold final. rewrite next_run. cbn [fst].
  rewrite next_apply. reflexivity.
Qed.

Lemma play_rest (b : backend) (rest : list exercise) (drafts : list string) :
  Forall2 (fun ex a => a <> "" /\ judged b ex a <> None) rest drafts ->
  forall s,
    rest <> [] ->
    step s = "play" -> result s = None -> loading s = false ->
    skipn (idx s) (exercises s) = rest ->
    let s' := play_through b drafts s in
    step s' = "result" /\
    exercises s' = exercises s /\
    score s' = (score s + 10 * Z.of_nat
                  (List.length (filter (judged_correct b) (combine rest drafts))))%Z.
Proof.
  induction 1 as [|ex a rest drafts [Ha Hj] Hrest IH]; intros s Hne Hp Hr Hl Hk.
  - now elim Hne.
  - destruct (skipn_cons_inv _ _ _ _ Hk) as (Hc & Hk' & Hlen).
    destruct (judged b ex a) as [v|] eqn:Ev; [|now elim Hj].
    cbn zeta. unfold play_through. cbn [fold_left].
    rewrite (round_outcome b s a ex v Hp Hc Hr Hl Ha Ev).
    cbn [combine filter]. unfold judged_correct at 1. cbn [fst snd].
    rewrite Ev.
    destruct rest as [|ex' rest].
    + inversion Hrest; subst. cbn [fold_left].
      destruct (Nat.leb_spec (List.length (exercises s)) (idx s + 1));
        [|cbn in Hlen; lia].
      cbn -[Z.mul Z.add Z.of_nat].
      repeat split. destruct (correct v); cbn; lia.
    + destruct (Nat.leb_spec (List.length (exercises s)) (idx s + 1));
        [cbn in Hlen; lia|].
      match goal with
      | |- context [fold_left _ _ ?t] => set (s1 := t)
      end.
      destruct (IH s1) as (H1 & H2 & H3); try reflexivity.
      * discriminate.
      * exact Hp.
      * change (skipn (idx s + 1) (exercises s) = ex' :: rest).
        rewrite Nat.add_1_r. exact Hk'.
      * fold (play_through b drafts s1).
        split; [exact H1|]. split; [rewrite H2; reflexivity|].
        rewrite H3. unfold s1. cbn -[Z.mul Z.add Z.of_nat filter combine].
        destruct (correct v); cbn [List.length]; lia.
Qed.

(** X12: a lesson with at least one exercise, started and then played
    through exercise by exercise (enter a non-empty draft, Check, Next)
    with every check answered by the backend, ends on the result screen
    with a score of exactly 10 for each draft the backend judged correct;
    the exercise list is the fetched one throughout. *)
Theorem played_through_scores_ten_per_correct
  (b : backend) (ls : lesson) (s : state)
  (exs : list exercise) (drafts : list string) :
  b (GetExercises (lesson_id ls)) = Some exs ->
  exs <> [] ->
  Forall2 (fun ex a => a <> "" /\ judged b ex a <> None) exs drafts ->
  let s' := play_through b drafts (final b (startLesson (Some ls)) s) in
  step s' = "result" /\
  exercises s' = exs /\
  score s' = (10 * Z.of_nat
                (List.length (filter (judged_correct b) (combine exs drafts))))%Z.
Proof.
  intros Hb Hne Hall.
  assert (E : final b (startLesson (Some ls)) s =
              setLoading false
                (setStep "play" (setResult None (setAnswer "" (setScore (fun _ => 0%Z)
                   (setIdx 0 (setExercises exs (setSelectedLesson (Some ls) s)))))))).
  { unfold final. now rewrite startLesson_run, Hb. }
  rewrite E.
  match goal with
  | |- context [play_through b drafts ?t] => set (s0 := t)
  end.
  destruct (play_rest b exs drafts Hall s0 Hne eq_refl eq_refl eq_refl eq_refl)
    as (H1 & H2 & H3).
  cbn zeta. split; [exact H1|]. split; [exact H2|]. rewrite H3. reflexivity.
Qed.

Lemma played_through_scores_ten_per_correct_witness :
  let b := Sample.strict in
  let exs := [Sample.hola; Sample.adios] in
  let drafts := ["hola"; "hola"] in
  (b (GetExercises (lesson_id Sample.greetings)) = Some exs /\
   exs <> [] /\
   Forall2 (fun ex a => a <> "" /\ judged b ex a <> None) exs drafts) /\
  let s' := play_through b drafts
              (final b (startLesson (Some Sample.greetings))
                 (Sample.browsing false)) in
  step s' = "result" /\ exercises s' = exs /\ score s' = 20%Z.
Proof.
  intros b exs drafts.
  assert (Hne : exs <> []) by discriminate.
  assert (Hall : Forall2 (fun ex a => a <> "" /\ judged b ex a <> None)
                   exs drafts)
    by (repeat constructor; discriminate).
  split; [repeat split; assumption|].
  exact (played_through_scores_ten_per_correct b Sample.greetings
           (Sample.browsing false) exs drafts eq_refl Hne Hall).
Defined.

(** ** Pressing twice, and retrying nothing *)

Lemma check_ignored_while_busy (c : config) :
  loading (st c) = true -> perform c (Fire ClickCheck) = c.
Proof.
  intro Hb. cbn [perform].
  destruct (buttons_disabled_while_loading (st c) 0 Hb) as [_ Hd].
  rewrite Hd. now destruct c.
Qed.

(** X13: in any configuration where the busy flag is up, pressing Check
    changes nothing and sends nothing, whatever is in flight.  Pressing
    Check on a non-empty draft raises the flag and adds exactly one answer
    request to those in flight, so a second press that follows at once is
    ignored.  (Nothing is said about a press made after another handler
    has lowered the flag.) *)
Theorem second_check_is_ignored (c : config) (ex : exercise) :
  (loading (st c) = true -> perform c (Fire ClickCheck) = c) /\
  (step (st c) = "play" -> current (st c) = Some ex ->
   result (st c) = None -> loading (st c) = false -> answer (st c) <> "" ->
   let c1 := perform c (Fire ClickCheck) in
   st c1 = setLoading true (st c) /\
   (exists k,
       inflight c1
       = (inflight c ++
            [existT _ (PostAnswer (exercise_id ex) (answer (st c))) k])%list) /\
   perform c1 (Fire ClickCheck) = c1).
Proof.
  split; [apply check_ignored_while_busy|].
  intros Hp Hc Hr Hl Ha c1.
  pose proof (check_enabled (st c) ex Hp Hc Hr Hl Ha) as E.
  destruct (submitCurrent_in_flight (st c) ex Hc) as (k & Hk & _).
  assert (E1 : c1 = {| st := setLoading true (st c);
                       inflight := (inflight c ++
                         [existT _ (PostAnswer (exercise_id ex) (answer (st c))) k])%list |}).
  { unfold c1. cbn [perform]. rewrite E. unfold spawn. now rewrite Hk. }
  split; [now rewrite E1|]. split; [exists k; now rewrite E1|].
  apply check_ignored_while_busy. now rewrite E1.
Qed.

Lemma second_check_is_ignored_witness :
  let c := {| st := Sample.reviewing "hola" None; inflight := [] |} in
  let c1 := perform c (Fire ClickCheck) in
  (step (st c) = "play" /\ current (st c) = Some Sample.hola /\
   result (st c) = None /\ loading (st c) = false /\ answer (st c) <> "" /\
   loading (st c1) = true) /\
  st c1 = setLoading true (st c) /\
  perform c1 (Fire ClickCheck) = c1.
Proof.
  intros c c1.
  assert (Ha : answer (st c) <> "") by discriminate.
  destruct (second_check_is_ignored c Sample.hola) as (_ & Hpress).
  destruct (second_check_is_ignored c1 Sample.hola) as (Hbusy & _).
  destruct (Hpress eq_refl eq_refl eq_refl eq_refl Ha) as (H1 & _ & _).
  split; [repeat split; exact Ha|]. split; [exact H1|].
  exact (Hbusy eq_refl).
Defined.

(** X14: Retry on the result screen when no lesson is selected sends no
    request: reading [lesson.id] of [null] throws inside the [try], so the
    only effect is that the busy flag ends down.  The result screen, the
    score and the exercise list stay as they are. *)
Theorem retry_without_lesson_does_nothing (b : backend) (s : state) :
  step s = "result" -> selectedLesson s = None ->
  final b (handle s ClickRetry) s = setLoading false s /\
  calls b (handle s ClickRetry) s = [].
Proof.
  intros Hp Hl. rewrite (handle_on_result s ClickRetry Hp).
  unfold onResult, final, calls. rewrite Hl, startLesson_null_run.
  split; [|reflexivity]. destruct s; cbn in *. now subst.
Qed.

Lemma retry_without_lesson_does_nothing_witness :
  let s := setSelectedLesson None Sample.finished in
  (step s = "result" /\ selectedLesson s = None) /\
  final Sample.strict (handle s ClickRetry) s = setLoading false s /\
  calls Sample.strict (handle s ClickRetry) s = [].
Proof.
  intro s. split; [split; reflexivity|].
  apply (retry_without_lesson_does_nothing Sample.strict s); reflexivity.
Defined.
